(** * Request admission and health probes of the Slack MCP server

    A shallow embedding of [pkg/server/middleware/security.go] (rate limiting,
    CORS, security headers, preflight) and [pkg/server/health.go] (health,
    readiness and liveness probes), with the properties of the specification
    proved or refuted against it.

    Conventions.
    - A Go [string] is a [string] of bytes; a [map[string]T] is a
      [gmap string T]; a [time.Duration] is a [Z] of nanoseconds.
    - Mutable receivers ([*SecurityMiddleware], [http.ResponseWriter]) are
      passed in and returned.
    - Calls to the [zap] logger do not touch the response, the limiter
      registry or the control flow and are left out. *)

From Stdlib Require Import ZArith QArith Qcanon Qround Ascii String List Lia.
From stdpp Require Import base numbers option list strings pretty sorting gmap fin_maps.

Local Open Scope Z_scope.

(** ** The Go standard library, as far as the sources use it *)

Module GoStrings.

Definition byte_eqb (a b : ascii) : bool := Ascii.eqb a b.

(** [strings.IndexByte]: position of the first occurrence, if any. *)
Fixpoint IndexByte (s : string) (c : ascii) : option nat :=
  match s with
  | EmptyString => None
  | String a s' => if byte_eqb a c then Some O else S <$> IndexByte s' c
  end.

(** [strings.LastIndexByte]: position of the last occurrence, if any. *)
Fixpoint LastIndexByte (s : string) (c : ascii) : option nat :=
  match s with
  | EmptyString => None
  | String a s' =>
      match LastIndexByte s' c with
      | Some i => Some (S i)
      | None => if byte_eqb a c then Some O else None
      end
  end.

(** [strings.Contains(s, string(c))] for a one-byte needle. *)
Definition ContainsByte (s : string) (c : ascii) : bool :=
  bool_decide (is_Some (IndexByte s c)).

(** [strings.Split(s, string(sep))] for a one-byte separator: always at
    least one piece. *)
Fixpoint Split (s : string) (sep : ascii) : list string :=
  match s with
  | EmptyString => [EmptyString]
  | String a s' =>
      if byte_eqb a sep then EmptyString :: Split s' sep
      else match Split s' sep with
           | hd :: tl => String a hd :: tl
           | [] => [String a EmptyString]
           end
  end.

(** [unicode.IsSpace] on the UTF-8 encoding: the six ASCII blanks, and the
    two- and three-byte encodings of U+0085, U+00A0, U+1680, U+2000..U+200A,
    U+2028, U+2029, U+202F, U+205F and U+3000. *)
Definition space1 (a : ascii) : bool :=
  match a with
  | "009" | "010" | "011" | "012" | "013" | " " => true
  | _ => false
  end%char.

Definition space2 (a b : ascii) : bool :=
  match a, b with
  | "194", "133" | "194", "160" => true
  | _, _ => false
  end%char.

Definition space3 (a b c : ascii) : bool :=
  let n := N_of_ascii c in
  match a, b with
  | "225", "154" => bool_decide (n = 128)%N
  | "226", "128" =>
      bool_decide (128 ≤ n ≤ 138)%N || bool_decide (n = 168)%N
      || bool_decide (n = 169)%N || bool_decide (n = 175)%N
  | "226", "129" => bool_decide (n = 159)%N
  | "227", "128" => bool_decide (n = 128)%N
  | _, _ => false
  end%char.

(** Strip white space from the front.  With [back = true] the string is
    read backwards, so a multi-byte blank shows up last byte first. *)
Fixpoint trim_front (back : bool) (s : string) : string :=
  match s with
  | EmptyString => s
  | String a s1 =>
      if space1 a then trim_front back s1
      else
        match s1 with
        | EmptyString => s
        | String b s2 =>
            if (if back then space2 b a else space2 a b)
            then trim_front back s2
            else
              match s2 with
              | EmptyString => s
              | String c s3 =>
                  if (if back then space3 c b a else space3 a b c)
                  then trim_front back s3
                  else s
              end
        end
  end.

(** [strings.TrimSpace]. *)
Definition TrimSpace (s : string) : string :=
  String.rev (trim_front true (String.rev (trim_front false s))).

(** [s[i:j]] for [i <= j <= len(s)]. *)
Definition slice (s : string) (i j : nat) : string :=
  String.substring i (j - i) s.

(** [s[i:]]. *)
Definition slice_from (s : string) (i : nat) : string :=
  String.substring i (String.length s - i) s.

End GoStrings.

Module GoNet.
Import GoStrings.

(** [net.SplitHostPort]: [None] stands for a non-nil error. *)
Definition SplitHostPort (hostport : string) : option (string * string) :=
  match LastIndexByte hostport ":" with
  | None => None
  | Some i =>
      let bracketed :=
        match hostport with
        | String "[" _ => true
        | _ => false
        end%char in
      let parsed : option (string * nat * nat) :=
        if bracketed then
          match IndexByte hostport "]" with
          | None => None
          | Some e =>
              if bool_decide (S e = String.length hostport) then None
              else if bool_decide (S e = i) then Some (slice hostport 1 e, 1%nat, S e)
              else None
          end
        else
          let host := slice hostport 0 i in
          if ContainsByte host ":" then None else Some (host, O, O)
      in
      match parsed with
      | None => None
      | Some (host, j, k) =>
          if ContainsByte (slice_from hostport j) "[" then None
          else if ContainsByte (slice_from hostport k) "]" then None
          else Some (host, slice_from hostport (S i))
      end
  end.

End GoNet.

Module GoStrconv.

Definition digit (a : ascii) : option Z :=
  let n := Z.of_N (N_of_ascii a) in
  if bool_decide (48 ≤ n ≤ 57) then Some (n - 48) else None.

(** Value of a string of decimal digits, most significant first. *)
Fixpoint digits (acc : Z) (s : string) : option Z :=
  match s with
  | EmptyString => Some acc
  | String a s' =>
      match digit a with
      | Some d => digits (acc * 10 + d) s'
      | None => None
      end
  end.

Definition unsigned (s : string) : option Z :=
  match s with
  | EmptyString => None
  | _ => digits 0 s
  end.

Definition MinInt : Z := - 2 ^ 63.
Definition MaxInt : Z := 2 ^ 63 - 1.

(** [strconv.Atoi] on a 64-bit platform: an optional sign, then decimal
    digits; [None] stands for a non-nil error (bad syntax or a value
    outside [int]). *)
Definition Atoi (s : string) : option Z :=
  let signed :=
    match s with
    | String "-" s' => Z.opp <$> unsigned s'
    | String "+" s' => unsigned s'
    | _ => unsigned s
    end%char in
  match signed with
  | Some n => if bool_decide (MinInt ≤ n ≤ MaxInt) then Some n else None
  | None => None
  end.

(** [strconv.ParseBool]. *)
Definition ParseBool (s : string) : option bool :=
  if bool_decide (s ∈ ["1"; "t"; "T"; "TRUE"; "true"; "True"]) then Some true
  else if bool_decide (s ∈ ["0"; "f"; "F"; "FALSE"; "false"; "False"]) then Some false
  else None.

End GoStrconv.

Module GoTime.

(** [time.Duration]: a count of nanoseconds. *)
Definition Duration : Type := Z.
Definition Second : Duration := 1000000000.
Definition Minute : Duration := 60 * Second.

(** Integer division of Go on [int64] operands: a run-time panic on a zero
    divisor ([None]), truncation towards zero, wrap-around of the one
    overflowing quotient. *)
Definition wrap64 (z : Z) : Z := (z + 2 ^ 63) mod 2 ^ 64 - 2 ^ 63.
Definition div64 (a b : Z) : option Z :=
  if bool_decide (b = 0) then None else Some (wrap64 (Z.quot a b)).

(** A [time.Time] as returned by [time.Now]: the wall clock (nanoseconds
    since the Unix epoch, UTC) and the monotonic reading. *)
Record Time : Type := mkTime { wall : Z; mono : Z }.

(** [time.Since(t)] when read at clock value [now]: the difference of the
    monotonic readings. *)
Definition Since (now t : Time) : Duration := mono now - mono t.

End GoTime.

Module GoHTTP.

(** [textproto.CanonicalMIMEHeaderKey]: a key made of token bytes only gets
    an upper-case letter first and after every dash and lower-case letters
    elsewhere; any other key is returned unchanged. *)
Definition is_upper (a : ascii) : bool :=
  let n := N_of_ascii a in bool_decide (65 ≤ n ≤ 90)%N.
Definition is_lower (a : ascii) : bool :=
  let n := N_of_ascii a in bool_decide (97 ≤ n ≤ 122)%N.
Definition is_digit (a : ascii) : bool :=
  let n := N_of_ascii a in bool_decide (48 ≤ n ≤ 57)%N.
Definition to_upper (a : ascii) : ascii :=
  if is_lower a then ascii_of_N (N_of_ascii a - 32) else a.
Definition to_lower (a : ascii) : ascii :=
  if is_upper a then ascii_of_N (N_of_ascii a + 32) else a.

Definition validHeaderFieldByte (a : ascii) : bool :=
  is_upper a || is_lower a || is_digit a ||
  match a with
  | "!" | "#" | "$" | "%" | "&" | "'" | "*" | "+" | "-" | "." | "^" | "_"
  | "`" | "|" | "~" => true
  | _ => false
  end%char.

Fixpoint all_bytes (p : ascii → bool) (s : string) : bool :=
  match s with
  | EmptyString => true
  | String a s' => p a && all_bytes p s'
  end.

Fixpoint recase (upper : bool) (s : string) : string :=
  match s with
  | EmptyString => EmptyString
  | String a s' =>
      let c := if upper then to_upper a else to_lower a in
      String c (recase (Ascii.eqb c "-") s')
  end.

Definition CanonicalMIMEHeaderKey (s : string) : string :=
  if all_bytes validHeaderFieldByte s then recase true s else s.

(** [http.Header]: canonical key to list of values. *)
Abbreviation Header := (gmap string (list string)).

(** [Header.Get]: the first value under the canonical key, or the empty
    string. *)
Definition Get (h : Header) (key : string) : string :=
  match h !! CanonicalMIMEHeaderKey key with
  | Some (v :: _) => v
  | _ => ""
  end.

(** [Header.Values]: the values under the canonical key, [None] for a key
    the map does not have. *)
Definition Values (h : Header) (key : string) : option (list string) :=
  h !! CanonicalMIMEHeaderKey key.

(** [Header.Set]: replace the values under the canonical key. *)
Definition Set_ (h : Header) (key value : string) : Header :=
  <[CanonicalMIMEHeaderKey key := [value]]> h.

(** [Header.Del]. *)
Definition Del (h : Header) (key : string) : Header :=
  delete (CanonicalMIMEHeaderKey key) h.

(** [http.Request], the fields the sources read. *)
Record Request : Type := mkRequest {
  Method : string;
  Path : string;            (* r.URL.Path *)
  ReqHeader : Header;       (* r.Header *)
  RemoteAddr : string
}.

Definition MethodOptions : string := "OPTIONS".
Definition StatusOK : Z := 200.
Definition StatusTooManyRequests : Z := 429.
Definition StatusInternalServerError : Z := 500.
Definition StatusServiceUnavailable : Z := 503.

(** What a handler writes to the body.  An encoded document is kept as the
    value it renders, and the output of [fmt.Sprintf] as the name of its
    template with the arguments, not as text. *)
#[warnings="-register-all"] Inductive JSON : Type :=
| JString (s : string)
| JNumber (n : Z)
| JTime (unix_nanos : Z)                  (* an RFC 3339 timestamp *)
| JObject (fields : list (string * JSON)).

Inductive Arg : Type :=
| Str (s : string)
| Stamp (unix_nanos : Z).                 (* formatted by [time.RFC3339] *)

Inductive Chunk : Type :=
| Text (s : string)
| Doc (j : JSON)
| Template (format : string) (args : list Arg).

(** [http.ResponseWriter] ([httptest.ResponseRecorder] and the server's
    writer agree on this much): the header map handlers mutate, the status
    line once it is written together with the headers sent with it, and the
    body written so far. *)
Record ResponseWriter : Type := mkResponseWriter {
  hdr : Header;
  status : option Z;
  sent : Header;
  body : list Chunk
}.

(** A writer nothing has been written to. *)
Definition NewRecorder : ResponseWriter :=
  {| hdr := ∅; status := None; sent := ∅; body := [] |}.

(** [w.Header().Set(key, value)]. *)
Definition SetHeader (w : ResponseWriter) (key value : string) : ResponseWriter :=
  {| hdr := Set_ (hdr w) key value; status := status w;
     sent := sent w; body := body w |}.

Definition DelHeader (w : ResponseWriter) (key : string) : ResponseWriter :=
  {| hdr := Del (hdr w) key; status := status w;
     sent := sent w; body := body w |}.

(** [w.WriteHeader(code)]: the first call fixes the status line and the
    headers of the response; every later call is ignored. *)
Definition WriteHeader (w : ResponseWriter) (code : Z) : ResponseWriter :=
  match status w with
  | Some _ => w
  | None => {| hdr := hdr w; status := Some code; sent := hdr w; body := body w |}
  end.

(** [w.Write(b)]: writes the header with status 200 first if none was
    written yet. *)
Definition Write (w : ResponseWriter) (b : Chunk) : ResponseWriter :=
  let w1 := WriteHeader w StatusOK in
  {| hdr := hdr w1; status := status w1; sent := sent w1; body := body w1 ++ [b] |}.

(** [http.Error(w, msg, code)]. *)
Definition Error (w : ResponseWriter) (msg : string) (code : Z) : ResponseWriter :=
  let w1 := DelHeader w "Content-Length" in
  let w2 := SetHeader w1 "Content-Type" "text/plain; charset=utf-8" in
  let w3 := SetHeader w2 "X-Content-Type-Options" "nosniff" in
  let w4 := WriteHeader w3 code in
  Write w4 (Text (msg +:+ String "010"%char EmptyString)).

(** The response the client gets once the handler has returned: a handler
    that wrote nothing answers 200 with the headers set so far. *)
Definition Code (w : ResponseWriter) : Z := default StatusOK (status w).
Definition ResponseHeader (w : ResponseWriter) : Header :=
  match status w with
  | Some _ => sent w
  | None => hdr w
  end.

(** [http.Handler]: a handler maps the writer it is given to the writer it
    leaves behind. *)
Definition Handler : Type := ResponseWriter → Request → ResponseWriter.

End GoHTTP.

(** ** The token bucket *)

Module Rate.
Import GoTime.
Local Open Scope Qc_scope.

(** Modelled from the spec: [rate.Limit] of [golang.org/x/time/rate], which
    is not among the sources: a refill rate in tokens per second, or the rate
    without limit. *)
Inductive Limit : Type :=
| Inf
| PerSecond (r : Qc).

(** Modelled from the spec: the limiter of [golang.org/x/time/rate] is not
    among the sources.  A bucket has a capacity ([burst]), a current token
    count, a refill rate in tokens per second and the time of its last
    refill.  Token counts, which the library keeps in floating point, are
    exact rationals here. *)
Record Limiter : Type := mkLimiter {
  limit : Limit;
  burst : Z;
  tokens : Qc;
  last : Z                                   (* monotonic nanoseconds *)
}.

(** Modelled from the spec: [rate.NewLimiter(r, b)], a bucket of capacity
    [b] that starts full. *)
Definition NewLimiter (r : Limit) (b : Z) : Limiter :=
  {| limit := r; burst := b; tokens := Qc_of_Z b; last := 0%Z |}.

(** The smaller of two rationals. *)
Definition Qcmin (x y : Qc) : Qc := if decide (x ≤ y) then x else y.

(** Modelled from the spec: the tokens in the bucket at time [now], by
    continuous accrual since the last refill, capped at the capacity. *)
Definition advance (lim : Limiter) (r : Qc) (now : Z) : Qc :=
  let elapsed := (now - Z.min (last lim) now)%Z in
  let delta := Qc_of_Z elapsed / Qc_of_Z Second * r in
  Qcmin (tokens lim + delta) (Qc_of_Z (burst lim)).

(** Modelled from the spec: [lim.Allow()] called at time [now].  With at
    least one token in the bucket, take one and report [true]; otherwise
    report [false] and leave the bucket as it is. *)
Definition Allow (lim : Limiter) (now : Z) : bool * Limiter :=
  match limit lim with
  | Inf => (true, lim)
  | PerSecond r =>
      let tk := advance lim r now in
      if decide (1 ≤ tk)
      then (true, {| limit := limit lim; burst := burst lim;
                     tokens := tk - 1; last := now |})
      else (false, lim)
  end.

End Rate.

Module GoOS.

(** The process environment. *)
Abbreviation Environ := (gmap string string).

(** [os.Getenv]: the empty string for an unset variable. *)
Definition Getenv (env : Environ) (key : string) : string :=
  default "" (env !! key).

End GoOS.

Module GoFmt.
Local Open Scope Qc_scope.

(** The verb [%.0f] on a number kept as an exact rational: the nearest
    integer, a tie going to the even one. *)
Definition round_half_even (q : Qc) : Z :=
  let f := Qfloor q in
  let r := q - Qc_of_Z f in
  let half := 1 / Qc_of_Z 2 in
  if decide (r < half) then f
  else if decide (half < r) then (f + 1)%Z
  else if Z.even f then f else (f + 1)%Z.

Definition f0 (q : Qc) : string := pretty (round_half_even q).

End GoFmt.

(** ** [pkg/server/middleware/security.go] *)

Module Middleware.
Import GoStrings GoNet GoStrconv GoTime GoHTTP GoOS Rate.

(** [SecurityConfig] (the logger left out). *)
Record SecurityConfig : Type := mkSecurityConfig {
  CORSOrigins : list string;
  EnableSecurityHeaders : bool;
  RateLimit : Duration
}.

(** [SecurityMiddleware]: the configuration and one limiter per client.
    The mutex only serialises access to the map and has no state of its own
    in a sequential run. *)
Record SecurityMiddleware : Type := mkSecurityMiddleware {
  config : SecurityConfig;
  rateLimiters : gmap string Limiter
}.

(** [parseCORSOrigins]. *)
Definition parseCORSOrigins (env : Environ) : list string :=
  let corsOrigins := Getenv env "SLACK_MCP_CORS_ORIGINS" in
  if decide (corsOrigins = "") then []
  else filter (λ trimmed, trimmed ≠ "") (TrimSpace <$> Split corsOrigins ",").

(** [parseSecurityHeaders]. *)
Definition parseSecurityHeaders (env : Environ) : bool :=
  let value := Getenv env "SLACK_MCP_SECURITY_HEADERS" in
  if decide (value = "") then true
  else match ParseBool value with
       | None => true
       | Some enabled => enabled
       end.

(** [parseRateLimit]: the interval between two requests.  [None] would be
    the run-time panic of an integer division by zero. *)
Definition parseRateLimit (env : Environ) : option Duration :=
  let value := Getenv env "SLACK_MCP_RATE_LIMIT" in
  if decide (value = "") then Some Minute
  else match Atoi value with
       | None => Some Minute
       | Some requestsPerMinute =>
           if decide (requestsPerMinute ≤ 0) then Some Minute
           else div64 Minute requestsPerMinute
       end.

(** [NewSecurityMiddleware]. *)
Definition NewSecurityMiddleware (env : Environ) : option SecurityMiddleware :=
  rl ← parseRateLimit env;
  Some {| config := {| CORSOrigins := parseCORSOrigins env;
                       EnableSecurityHeaders := parseSecurityHeaders env;
                       RateLimit := rl |};
          rateLimiters := ∅ |}.

(** [getClientIP]. *)
Definition getClientIP (r : Request) : string :=
  let xff := Get (ReqHeader r) "X-Forwarded-For" in
  if decide (xff ≠ "") then TrimSpace (hd "" (Split xff ","))
  else
    let xri := Get (ReqHeader r) "X-Real-IP" in
    if decide (xri ≠ "") then xri
    else
      let ip := RemoteAddr r in
      if ContainsByte ip ":" then
        match SplitHostPort ip with
        | Some (host, _) => host
        | None => ip
        end
      else ip.

(** [d.Seconds()] and [d.Minutes()], as exact rationals. *)
Definition Seconds (d : Duration) : Qc := (Qc_of_Z d / Qc_of_Z Second)%Qc.
Definition Minutes (d : Duration) : Qc := (Qc_of_Z d / Qc_of_Z Minute)%Qc.

(** [rate.Limit(1.0 / d.Seconds())]: the quotient is infinite for [d = 0]. *)
Definition rps (d : Duration) : Limit :=
  if decide (d = 0) then Inf else PerSecond (1 / Seconds d)%Qc.

(** [getRateLimiter]: the limiter of [ip], created on first use. *)
Definition getRateLimiter (sm : SecurityMiddleware) (ip : string)
  : Limiter * SecurityMiddleware :=
  match rateLimiters sm !! ip with
  | Some limiter => (limiter, sm)
  | None =>
      let limiter := NewLimiter (rps (RateLimit (config sm))) 1 in
      (limiter, {| config := config sm;
                   rateLimiters := <[ip := limiter]> (rateLimiters sm) |})
  end.

(** [writeErrorResponse]. *)
Definition writeErrorResponse (w : ResponseWriter) (r : Request) (now : Time)
    (statusCode : Z) (errorCode message details : string) : ResponseWriter :=
  let w1 := SetHeader w "Content-Type" "application/json" in
  let w2 := WriteHeader w1 statusCode in
  Write w2 (Template "error"
              [Str errorCode; Str message; Str details; Stamp (wall now);
               Str (Path r)]).

(** [checkRateLimit]: whether the request may pass.  The map holds pointers,
    so the bucket [Allow] has updated is the one the registry keeps. *)
Definition checkRateLimit (sm : SecurityMiddleware) (now : Time)
    (r : Request) (w : ResponseWriter)
  : bool * ResponseWriter * SecurityMiddleware :=
  if decide (RateLimit (config sm) = 0) then (true, w, sm)
  else
    let clientIP := getClientIP r in
    let '(limiter, sm1) := getRateLimiter sm clientIP in
    let '(ok, limiter') := Allow limiter (mono now) in
    let sm2 := {| config := config sm1;
                  rateLimiters := <[clientIP := limiter']> (rateLimiters sm1) |} in
    if negb ok then
      (false,
       writeErrorResponse w r now StatusTooManyRequests "RATE_LIMIT_EXCEEDED"
         "Too many requests from this client"
         ("Rate limit of "
            +:+ GoFmt.f0 (Qc_of_Z 60 / Minutes (RateLimit (config sm)))%Qc
            +:+ " requests per minute exceeded"),
       sm2)
    else (true, w, sm2).

(** The loop of [applyCORS] over the allow-list: the first entry that is the
    wildcard or the request's origin sets the header and ends the loop. *)
Fixpoint allowOrigin (origins : list string) (origin : string)
    (w : ResponseWriter) : ResponseWriter * bool :=
  match origins with
  | [] => (w, false)
  | allowedOrigin :: rest =>
      if bool_decide (allowedOrigin = "*") || bool_decide (allowedOrigin = origin)
      then (SetHeader w "Access-Control-Allow-Origin" origin, true)
      else allowOrigin rest origin w
  end.

(** [applyCORS]. *)
Definition applyCORS (sm : SecurityMiddleware) (w : ResponseWriter)
    (r : Request) : ResponseWriter :=
  let origin := Get (ReqHeader r) "Origin" in
  let w1 :=
    if decide (length (CORSOrigins (config sm)) = 0%nat)
    then SetHeader w "Access-Control-Allow-Origin" "*"
    else (allowOrigin (CORSOrigins (config sm)) origin w).1 in
  let w2 := SetHeader w1 "Access-Control-Allow-Methods"
              "GET, POST, PUT, DELETE, OPTIONS" in
  let w3 := SetHeader w2 "Access-Control-Allow-Headers"
              "Content-Type, Authorization, X-Requested-With" in
  let w4 := SetHeader w3 "Access-Control-Allow-Credentials" "true" in
  SetHeader w4 "Access-Control-Max-Age" "86400".

(** [applySecurityHeaders]. *)
Definition applySecurityHeaders (w : ResponseWriter) : ResponseWriter :=
  let w1 := SetHeader w "X-Content-Type-Options" "nosniff" in
  let w2 := SetHeader w1 "X-Frame-Options" "DENY" in
  let w3 := SetHeader w2 "X-XSS-Protection" "1; mode=block" in
  let w4 := SetHeader w3 "Referrer-Policy" "strict-origin-when-cross-origin" in
  SetHeader w4 "Content-Security-Policy"
    "default-src 'self'; script-src 'self'; style-src 'self' 'unsafe-inline'".

(** [Handler]: the middleware around the downstream handler [next], serving
    one request at clock value [now]. *)
Definition Handler (sm : SecurityMiddleware) (next : GoHTTP.Handler)
    (now : Time) (w : ResponseWriter) (r : Request)
  : ResponseWriter * SecurityMiddleware :=
  let '(ok, w0, sm') := checkRateLimit sm now r w in
  if negb ok then (w0, sm')
  else
    let w1 := applyCORS sm' w0 r in
    let w2 := if EnableSecurityHeaders (config sm')
              then applySecurityHeaders w1 else w1 in
    if decide (Method r = MethodOptions)
    then (WriteHeader w2 StatusOK, sm')
    else (next w2 r, sm').

(** The writer as the middleware leaves it for the preflight answer or the
    downstream handler: the second and third stage of [Handler]. *)
Definition prepared (sm : SecurityMiddleware) (w : ResponseWriter)
    (r : Request) : ResponseWriter :=
  let w1 := applyCORS sm w r in
  if EnableSecurityHeaders (config sm) then applySecurityHeaders w1 else w1.

(** A sequence of calls of [checkRateLimit], each on a writer of its own:
    the verdicts and the registry left behind. *)
Fixpoint checkAll (sm : SecurityMiddleware) (batch : list (Time * Request))
  : list bool * SecurityMiddleware :=
  match batch with
  | [] => ([], sm)
  | (now, r) :: rest =>
      let '(ok, _, sm1) := checkRateLimit sm now r NewRecorder in
      let '(oks, sm2) := checkAll sm1 rest in
      (ok :: oks, sm2)
  end.

(** The downstream handler of the package's tests: status 200 and a short
    body. *)
Definition okHandler : GoHTTP.Handler :=
  λ w _, Write (WriteHeader w StatusOK) (Text "OK").

(** A bucket of capacity one that has just given out its token at time
    [t]. *)
Definition drained (d : Duration) (t : Z) : Limiter :=
  {| limit := rps d; burst := 1; tokens := 0%Qc; last := t |}.

End Middleware.

(** ** [pkg/server/health.go] *)

Module Health.
Import GoTime GoHTTP GoOS.

(** [HealthStatus] and [CheckStatus] are string types with two named
    values each. *)
Definition HealthStatus : Type := string.
Definition HealthStatusHealthy : HealthStatus := "healthy".
Definition HealthStatusUnhealthy : HealthStatus := "unhealthy".

Definition CheckStatus : Type := string.
Definition CheckStatusOK : CheckStatus := "ok".
Definition CheckStatusError : CheckStatus := "error".

(** [HealthResponse].  [Uptime] is a pointer, [None] being nil. *)
Record HealthResponse : Type := mkHealthResponse {
  Status : HealthStatus;
  Timestamp : Time;
  Version : string;
  Checks : gmap string CheckStatus;
  Uptime : option Duration;
  Details : gmap string string
}.

(** Modelled from the spec: package [provider] is not among the sources.
    The health checker consumes it through a readiness predicate and a
    dependency-probe call; a provider is what these calls answer.  The Slack
    client answers the probe [AuthTestContext(ctx)] with an error or without
    one; a deadline of the context that has run out is such an error. *)
Record SlackAPI : Type := mkSlackAPI {
  AuthTestContext : option string            (* the error, if any *)
}.

(** Modelled from the spec: [provider.ApiProvider], by the answers of
    [IsReady()] and [Slack()]. *)
Record ApiProvider : Type := mkApiProvider {
  IsReady : bool * option string;            (* ready, err *)
  Slack : option SlackAPI                    (* nil before it is set up *)
}.

(** [HealthChecker] (the logger left out); [provider] is a pointer, [None]
    being nil. *)
Record HealthChecker : Type := mkHealthChecker {
  provider : option ApiProvider;
  startTime : Time
}.

(** What a handler finds around it: the environment variables, the version
    string of package [version] and the clock. *)
Record Sys : Type := mkSys {
  environ : Environ;
  version : string;
  now : Time
}.

(** *** Calls into the provider

    A computation yields a value unless it panics, and leaves the list of
    calls it made into the provider. *)
Inductive Call : Type :=
| CallIsReady
| CallSlack
| CallAuthTest.

Record Run (A : Type) : Type := mkRun {
  result : option A;                         (* [None]: a run-time panic *)
  calls : list Call
}.
Arguments mkRun {A} _ _.
Arguments result {A} _.
Arguments calls {A} _.

Definition ret {A} (a : A) : Run A := mkRun (Some a) [].
Definition panic {A} : Run A := mkRun None [].
Definition call (c : Call) : Run unit := mkRun (Some tt) [c].
Definition bind {A B} (m : Run A) (f : A → Run B) : Run B :=
  match result m with
  | None => mkRun None (calls m)
  | Some a => let n := f a in mkRun (result n) (calls m ++ calls n)
  end.

Global Instance run_ret : MRet Run := @ret.
Global Instance run_bind : MBind Run := λ A B f m, bind m f.

(** A method call through a nil pointer panics. *)
Definition provider_IsReady (p : option ApiProvider) : Run (bool * option string) :=
  match p with
  | None => panic
  | Some p => call CallIsReady ;; ret (IsReady p)
  end.

Definition provider_Slack (p : option ApiProvider) : Run (option SlackAPI) :=
  match p with
  | None => panic
  | Some p => call CallSlack ;; ret (Slack p)
  end.

Definition slack_AuthTestContext (c : option SlackAPI) : Run (option string) :=
  match c with
  | None => panic
  | Some c => call CallAuthTest ;; ret (AuthTestContext c)
  end.

(** [checkCacheSystem]. *)
Definition checkCacheSystem (h : HealthChecker) : Run CheckStatus :=
  if decide (provider h = None) then ret CheckStatusError
  else
    '(ready, err) ← provider_IsReady (provider h);
    if bool_decide (err ≠ None) || negb ready then ret CheckStatusError
    else ret CheckStatusOK.

(** [checkSlackAPI]. *)
Definition checkSlackAPI (h : HealthChecker) (sys : Sys) : Run CheckStatus :=
  if decide (provider h = None) then ret CheckStatusError
  else
    client ← provider_Slack (provider h);
    if decide (client = None) then ret CheckStatusError
    else if bool_decide (Getenv (environ sys) "SLACK_MCP_XOXP_TOKEN" = "demo")
            || (bool_decide (Getenv (environ sys) "SLACK_MCP_XOXC_TOKEN" = "demo")
                && bool_decide (Getenv (environ sys) "SLACK_MCP_XOXD_TOKEN" = "demo"))
    then ret CheckStatusOK
    else
      client ← provider_Slack (provider h);
      err ← slack_AuthTestContext client;
      if decide (err ≠ None) then ret CheckStatusError
      else ret CheckStatusOK.

(** [performHealthChecks]. *)
Definition performHealthChecks (h : HealthChecker) (sys : Sys)
    (includeReadiness : bool) : Run HealthResponse :=
  let checks : gmap string CheckStatus := ∅ in
  let details : gmap string string := ∅ in
  let overallStatus := HealthStatusHealthy in
  cacheStatus ← checkCacheSystem h;
  let checks := <["cache" := cacheStatus]> checks in
  let '(overallStatus, details) :=
    if decide (cacheStatus = CheckStatusError)
    then (HealthStatusUnhealthy, <["cache" := "Cache system not ready"]> details)
    else (overallStatus, details) in
  '(checks, overallStatus, details) ←
    (if includeReadiness then
       slackStatus ← checkSlackAPI h sys;
       let checks := <["slack_api" := slackStatus]> checks in
       if decide (slackStatus = CheckStatusError)
       then ret (checks, HealthStatusUnhealthy,
                 <["slack_api" := "Slack API connectivity failed"]> details)
       else ret (checks, overallStatus, details)
     else ret (checks, overallStatus, details));
  let uptime := Since (now sys) (startTime h) in
  ret {| Status := overallStatus;
         Timestamp := now sys;
         Version := version sys;
         Checks := checks;
         Uptime := Some uptime;
         Details := details |}.

(** *** Rendering *)

(** [Time.MarshalJSON] fails for a year outside 0..9999. *)
Definition year0 : Z := -62167219200 * Second.
Definition year10000 : Z := 253402300800 * Second.
Definition marshalTime (t : Time) : option JSON :=
  if decide (year0 ≤ wall t < year10000) then Some (JTime (wall t)) else None.

(** A map is rendered with its keys in increasing order. *)
Definition marshalMap (m : gmap string string) : JSON :=
  JObject (prod_map id JString
             <$> merge_sort (λ a b, String.le a.1 b.1) (map_to_list m)).

(** [json.Marshal] of a [HealthResponse], by its field tags: [uptime] is
    left out for a nil pointer and [details] for an empty map. *)
Definition marshalHealthResponse (response : HealthResponse) : option JSON :=
  ts ← marshalTime (Timestamp response);
  Some (JObject
          ([("status", JString (Status response));
            ("timestamp", ts);
            ("version", JString (Version response));
            ("checks", marshalMap (Checks response))]
           ++ match Uptime response with
              | Some d => [("uptime", JNumber d)]
              | None => []
              end
           ++ (if decide (Details response = ∅) then []
               else [("details", marshalMap (Details response))]))).

(** [json.NewEncoder(w).Encode(v)]: nothing is written when the value does
    not marshal; the flag reports the error. *)
Definition Encode (w : ResponseWriter) (response : HealthResponse)
  : ResponseWriter * bool :=
  match marshalHealthResponse response with
  | None => (w, true)
  | Some j => (Write w (Doc j), false)
  end.

(** [writeHealthResponse]. *)
Definition writeHealthResponse (w : ResponseWriter) (response : HealthResponse)
  : ResponseWriter :=
  let w1 := SetHeader w "Content-Type" "application/json" in
  let w2 := if decide (Status response = HealthStatusUnhealthy)
            then WriteHeader w1 StatusServiceUnavailable
            else WriteHeader w1 StatusOK in
  let '(w3, err) := Encode w2 response in
  if err then Error w3 "Internal server error" StatusInternalServerError
  else w3.

(** [HealthHandler]. *)
Definition HealthHandler (h : HealthChecker) (sys : Sys)
    (w : ResponseWriter) (r : Request) : Run ResponseWriter :=
  response ← performHealthChecks h sys false;
  ret (writeHealthResponse w response).

(** [ReadinessHandler]. *)
Definition ReadinessHandler (h : HealthChecker) (sys : Sys)
    (w : ResponseWriter) (r : Request) : Run ResponseWriter :=
  response ← performHealthChecks h sys true;
  ret (writeHealthResponse w response).

(** The document [LivenessHandler] builds. *)
Definition livenessResponse (h : HealthChecker) (sys : Sys) : HealthResponse :=
  let uptime := Since (now sys) (startTime h) in
  {| Status := HealthStatusHealthy;
     Timestamp := now sys;
     Version := version sys;
     Checks := {["application" := CheckStatusOK]};
     Uptime := Some uptime;
     Details := ∅ |}.

(** [LivenessHandler]. *)
Definition LivenessHandler (h : HealthChecker) (sys : Sys)
    (w : ResponseWriter) (r : Request) : Run ResponseWriter :=
  ret (writeHealthResponse w (livenessResponse h sys)).

(** Whether a rendered document has a field of the given name. *)
Definition has_field (j : JSON) (name : string) : bool :=
  match j with
  | JObject fields => bool_decide (name ∈ fields.*1)
  | _ => false
  end.

End Health.

(** ** Requests of the test suites *)

Module Fixtures.
Import GoHTTP.

(** [httptest.NewRequest(method, "/test", nil)] with the peer address and,
    unless it is empty, the [Origin] header set. *)
Definition request (method origin addr : string) : Request :=
  {| Method := method; Path := "/test";
     ReqHeader := if decide (origin = "") then ∅ else Set_ ∅ "Origin" origin;
     RemoteAddr := addr |}.

End Fixtures.

(** ** The order the registry of limiters is kept in *)

Module Registry.
Import GoTime Rate Middleware.

(** A bucket in good order for the interval [d] of the configuration: the
    rate [getRateLimiter] gives it, capacity one, and a token count between
    zero and one. *)
Definition bucket_ok (d : Duration) (lim : Limiter) : Prop :=
  limit lim = rps d ∧ burst lim = 1 ∧ (0 ≤ tokens lim ≤ 1)%Qc.

End Registry.

(** ** [pkg/server/health.go], the switch of the health endpoints *)

Module HealthSwitch.
Import GoOS.

(** [IsHealthCheckEnabled]. *)
Definition IsHealthCheckEnabled (env : Environ) : bool :=
  let enabled := Getenv env "SLACK_MCP_HEALTH_ENABLED" in
  bool_decide (enabled = "") || bool_decide (enabled = "true").

End HealthSwitch.

(** ** [cmd/slack-mcp-server/main.go], the configuration *)

Module Main.
Import GoStrings GoStrconv GoTime GoOS.

Definition defaultSseHost : string := "127.0.0.1".
Definition defaultSsePort : Z := 13080.

(** [strconv.Itoa]. *)
Definition Itoa (n : Z) : string := pretty n.

(** [strings.HasPrefix]. *)
Definition HasPrefix (s p : string) : bool := String.prefix p s.

(** [ServerConfig]. *)
Record ServerConfig : Type := mkServerConfig {
  Host : string;
  Port : string;
  BaseURL : string;
  RailwayEnvironment : string;
  RailwayPort : string;
  CORSOrigins : list string;
  RateLimit : Duration;
  SecurityHeaders : bool;
  HealthEnabled : bool;
  PrivateNetwork : bool;
  LogLevel : string;
  LogFormat : string;
  LogColor : bool
}.

(** What a function returning a value and an [error] can end in: the value
    with a nil error, an error with its message, or a run-time panic. *)
Inductive Outcome (A : Type) : Type :=
| Ok (a : A)
| Err (msg : string)
| Panic.
Arguments Ok {A} _.
Arguments Err {A} _.
Arguments Panic {A}.

(** [loadServerConfig]. *)
Definition loadServerConfig (env : Environ) : Outcome ServerConfig :=
  let railwayPort := Getenv env "PORT" in
  let railwayEnvironment := Getenv env "RAILWAY_ENVIRONMENT" in
  let host := Getenv env "SLACK_MCP_HOST" in
  let port := Getenv env "SLACK_MCP_PORT" in
  let baseURL := Getenv env "SLACK_MCP_BASE_URL" in
  let port := if decide (railwayPort ≠ "") then railwayPort else port in
  let port := if decide (port = "") then Itoa defaultSsePort else port in
  let host :=
    if decide (host = "") then
      if bool_decide (railwayPort ≠ "") || bool_decide (railwayEnvironment ≠ "")
      then "" else defaultSseHost
    else host in
  let corsOriginsStr := Getenv env "SLACK_MCP_CORS_ORIGINS" in
  let corsOrigins :=
    if decide (corsOriginsStr = "") then ["*"]
    else TrimSpace <$> Split corsOriginsStr "," in
  let rateLimitStr := Getenv env "SLACK_MCP_RATE_LIMIT" in
  let rateLimit : Outcome Duration :=
    if decide (rateLimitStr = "") then Ok Minute
    else
      match Atoi rateLimitStr with
      | None =>
          Err ("invalid SLACK_MCP_RATE_LIMIT value '" +:+ rateLimitStr
               +:+ "': must be a non-negative integer")
      | Some rateLimitInt =>
          if decide (rateLimitInt < 0) then
            Err ("invalid SLACK_MCP_RATE_LIMIT value '" +:+ rateLimitStr
                 +:+ "': must be a non-negative integer")
          else if decide (rateLimitInt = 0) then Ok 0
          else match div64 Minute rateLimitInt with
               | Some d => Ok d
               | None => Panic
               end
      end in
  match rateLimit with
  | Err msg => Err msg
  | Panic => Panic
  | Ok rateLimit =>
      let securityHeadersStr := Getenv env "SLACK_MCP_SECURITY_HEADERS" in
      let healthEnabledStr := Getenv env "SLACK_MCP_HEALTH_ENABLED" in
      let privateNetworkStr := Getenv env "SLACK_MCP_PRIVATE_NETWORK" in
      let logColorStr := Getenv env "SLACK_MCP_LOG_COLOR" in
      Ok {| Host := host;
            Port := port;
            BaseURL := baseURL;
            RailwayEnvironment := railwayEnvironment;
            RailwayPort := railwayPort;
            CORSOrigins := corsOrigins;
            RateLimit := rateLimit;
            SecurityHeaders :=
              bool_decide (securityHeadersStr = "")
              || bool_decide (securityHeadersStr = "true")
              || bool_decide (securityHeadersStr = "1");
            HealthEnabled :=
              bool_decide (healthEnabledStr = "")
              || bool_decide (healthEnabledStr = "true")
              || bool_decide (healthEnabledStr = "1");
            PrivateNetwork :=
              bool_decide (privateNetworkStr = "true")
              || bool_decide (privateNetworkStr = "1")
              || bool_decide (railwayEnvironment ≠ "")
              || bool_decide (Getenv env "SLACK_MCP_SSE_API_KEY" = "");
            LogLevel := Getenv env "SLACK_MCP_LOG_LEVEL";
            LogFormat := Getenv env "SLACK_MCP_LOG_FORMAT";
            LogColor :=
              bool_decide (logColorStr = "true") || bool_decide (logColorStr = "1") |}
  end.

(** [validateServerConfig]: [None] is the nil error. *)
Definition validateServerConfig (config : ServerConfig) : option string :=
  match Atoi (Port config) with
  | None => Some ("invalid port '" +:+ Port config +:+ "': must be a valid integer")
  | Some _ =>
      if bool_decide (Exists (λ origin, origin = "") (CORSOrigins config))
      then Some "invalid CORS origin: empty origin not allowed"
      else if decide (RateLimit config < 0)
           then Some "invalid rate limit: must be non-negative"
           else None
  end.

(** The loop of [validateToolConfig]: the two flags after the items. *)
Definition toolFlags (items : list string) : bool * bool :=
  foldl (λ '(hasNegated, hasPositive) item,
           let item := TrimSpace item in
           if decide (item = "") then (hasNegated, hasPositive)
           else if HasPrefix item "!" then (true, hasPositive)
           else (hasNegated, true))
        (false, false) items.

(** [validateToolConfig]: [None] is the nil error. *)
Definition validateToolConfig (config : string) : option string :=
  if bool_decide (config = "") || bool_decide (config = "true")
     || bool_decide (config = "1")
  then None
  else
    let '(hasNegated, hasPositive) := toolFlags (Split config ",") in
    if hasNegated && hasPositive
    then Some "cannot mix allowed and disallowed (! prefixed) channels"
    else None.

(** The address [main] binds the SSE transport to: the port alone when
    the host is empty (both IP families), host and port otherwise. *)
Definition bindAddr (config : ServerConfig) : string :=
  if decide (Host config = "") then ":" +:+ Port config
  else Host config +:+ ":" +:+ Port config.

End Main.

(** ** Properties *)

Import GoStrings GoNet GoStrconv GoTime GoHTTP GoOS Rate Middleware Health Fixtures.

(** ** The tests of the packages, replayed on the model *)

Section replayed_tests.

Example TestGetClientIP_RemoteAddr :
  getClientIP {| Method := "GET"; Path := "/test"; ReqHeader := ∅;
                 RemoteAddr := "192.168.1.1:12345" |} = "192.168.1.1".
Proof. reflexivity. Qed.

Example TestGetClientIP_XForwardedFor :
  getClientIP {| Method := "GET"; Path := "/test";
                 ReqHeader := Set_ ∅ "X-Forwarded-For" "  203.0.113.1  , 192.168.1.1";
                 RemoteAddr := "192.168.1.1:12345" |} = "203.0.113.1".
Proof. reflexivity. Qed.

Example TestGetClientIP_XRealIP :
  getClientIP {| Method := "GET"; Path := "/test";
                 ReqHeader := Set_ ∅ "X-Real-IP" "203.0.113.2";
                 RemoteAddr := "192.168.1.1:12345" |} = "203.0.113.2".
Proof. reflexivity. Qed.

Example TestGetClientIP_IPv6 :
  getClientIP {| Method := "GET"; Path := "/test"; ReqHeader := ∅;
                 RemoteAddr := "[2001:db8::1]:12345" |} = "2001:db8::1".
Proof. reflexivity. Qed.

Example TestGetClientIP_Precedence :
  getClientIP {| Method := "GET"; Path := "/test";
                 ReqHeader := Set_ (Set_ ∅ "X-Forwarded-For" "203.0.113.1")
                                "X-Real-IP" "203.0.113.2";
                 RemoteAddr := "192.168.1.1:12345" |} = "203.0.113.1".
Proof. reflexivity. Qed.

Example TestParseCORSOrigins :
  parseCORSOrigins ∅ = []
  ∧ parseCORSOrigins {["SLACK_MCP_CORS_ORIGINS" := "https://example.com"]}
    = ["https://example.com"]
  ∧ parseCORSOrigins
      {["SLACK_MCP_CORS_ORIGINS" := " https://example.com , https://test.com "]}
    = ["https://example.com"; "https://test.com"]
  ∧ parseCORSOrigins
      {["SLACK_MCP_CORS_ORIGINS" := "https://example.com,,https://test.com"]}
    = ["https://example.com"; "https://test.com"].
Proof. by vm_compute. Qed.

Example TestParseSecurityHeaders :
  parseSecurityHeaders ∅ = true
  ∧ parseSecurityHeaders {["SLACK_MCP_SECURITY_HEADERS" := "true"]} = true
  ∧ parseSecurityHeaders {["SLACK_MCP_SECURITY_HEADERS" := "false"]} = false
  ∧ parseSecurityHeaders {["SLACK_MCP_SECURITY_HEADERS" := "1"]} = true
  ∧ parseSecurityHeaders {["SLACK_MCP_SECURITY_HEADERS" := "0"]} = false
  ∧ parseSecurityHeaders {["SLACK_MCP_SECURITY_HEADERS" := "invalid"]} = true.
Proof. by vm_compute. Qed.

Example TestParseRateLimit :
  parseRateLimit ∅ = Some Minute
  ∧ parseRateLimit {["SLACK_MCP_RATE_LIMIT" := "60"]} = Some Second
  ∧ parseRateLimit {["SLACK_MCP_RATE_LIMIT" := "120"]} = Some 500000000
  ∧ parseRateLimit {["SLACK_MCP_RATE_LIMIT" := "invalid"]} = Some Minute
  ∧ parseRateLimit {["SLACK_MCP_RATE_LIMIT" := "0"]} = Some Minute
  ∧ parseRateLimit {["SLACK_MCP_RATE_LIMIT" := "-10"]} = Some Minute.
Proof. by vm_compute. Qed.

Example TestSecurityMiddleware_CORSWildcard :
  ∃ sm, NewSecurityMiddleware {["SLACK_MCP_CORS_ORIGINS" := "*"]} = Some sm
    ∧ Get (ResponseHeader
             (Handler sm okHandler {| wall := 0; mono := 0 |} NewRecorder
                (request "GET" "https://any-origin.com" "192.0.2.1:1234")).1)
          "Access-Control-Allow-Origin" = "https://any-origin.com".
Proof. eexists. split; [reflexivity|]. by vm_compute. Qed.

Example TestHealthChecker_PerformHealthChecks :
  let h := {| provider := Some {| IsReady := (false, Some "not ready"); Slack := None |};
              startTime := {| wall := 0; mono := 0 |} |} in
  let sys := {| environ := ∅; version := "v1.0.0"; now := {| wall := 10; mono := 10 |} |} in
  (Status <$> result (performHealthChecks h sys false)) = Some HealthStatusUnhealthy
  ∧ (dom ∘ Checks <$> result (performHealthChecks h sys false)) = Some {["cache"]}
  ∧ (dom ∘ Checks <$> result (performHealthChecks h sys true))
    = Some {["cache"; "slack_api"]}.
Proof. by vm_compute. Qed.

End replayed_tests.

Section token_bucket.
Local Open Scope Qc_scope.

Lemma Qcmin_l (x y : Qc) : x ≤ y → Qcmin x y = x.
Proof. intros H. unfold Qcmin. by case_decide. Qed.

Lemma Qcmin_r (x y : Qc) : y ≤ x → Qcmin x y = y.
Proof.
  intros H. unfold Qcmin. case_decide; [|done]. by apply Qcle_antisym.
Qed.

Lemma Qc_of_Z_nonzero (z : Z) : z ≠ 0%Z → Qc_of_Z z ≠ 0.
Proof. rewrite <-Z2Qc_inj_0. by intros ? ?%Z2Qc_inj. Qed.

(** The refill over [e] nanoseconds at one token per [d] nanoseconds. *)
Lemma refill_amount (e d : Z) :
  (0 < d)%Z →
  Qc_of_Z e / Qc_of_Z Second * (1 / Seconds d) = Qc_of_Z e / Qc_of_Z d.
Proof.
  intros Hd. unfold Seconds.
  assert (Qc_of_Z d ≠ 0) by (apply Qc_of_Z_nonzero; lia).
  assert (Qc_of_Z Second ≠ 0) by (by apply Qc_of_Z_nonzero).
  field. by split.
Qed.

Lemma refill_nonneg (e d : Z) : (0 ≤ e)%Z → (0 < d)%Z → 0 ≤ Qc_of_Z e / Qc_of_Z d.
Proof.
  intros He Hd. apply Qcmult_nonneg_nonneg.
  - rewrite <-Z2Qc_inj_0. by apply (proj1 (Z2Qc_inj_le _ _)).
  - apply Qclt_le_weak, Qcinv_pos. rewrite <-Z2Qc_inj_0. by apply (proj1 (Z2Qc_inj_lt _ _)).
Qed.

Lemma refill_lt_1 (e d : Z) : (e < d)%Z → (0 < d)%Z → Qc_of_Z e / Qc_of_Z d < 1.
Proof.
  intros He Hd.
  assert (0 < Qc_of_Z d) as Hd' by (rewrite <-Z2Qc_inj_0; by apply (proj1 (Z2Qc_inj_lt _ _))).
  apply (Qcmult_lt_mono_pos_r _ _ (Qc_of_Z d)); [done|].
  rewrite Qcmult_1_l. unfold Qcdiv.
  rewrite <-Qcmult_assoc, Qcmult_inv_l, Qcmult_1_r by (by apply Qclt_not_eq in Hd').
  by apply (proj1 (Z2Qc_inj_lt _ _)).
Qed.

(** A bucket that is full lets the next call through and is empty
    afterwards. *)
Lemma Allow_full (d : Z) (lim : Limiter) (t : Z) :
  (0 < d)%Z →
  limit lim = PerSecond (1 / Seconds d) → burst lim = 1%Z → tokens lim = 1 →
  Allow lim t = (true, {| limit := limit lim; burst := 1; tokens := 0; last := t |}).
Proof.
  intros Hd Hl Hb Htk. unfold Allow, advance. rewrite Hl, Hb, Htk.
  rewrite refill_amount by done. rewrite Z2Qc_inj_1.
  rewrite Qcmin_r.
  - case_decide as H1; [|by destruct H1].
    unfold Qcminus. by rewrite Qcplus_opp_r.
  - rewrite <-(Qcplus_0_r 1) at 1. apply Qcplus_le_mono_l.
    apply refill_nonneg; lia.
Qed.

(** An empty bucket refuses every call made before one refill interval has
    gone by, and stays as it is. *)
Lemma Allow_empty (d : Z) (lim : Limiter) (t : Z) :
  (0 < d)%Z →
  limit lim = PerSecond (1 / Seconds d) → burst lim = 1%Z → tokens lim = 0 →
  (t < last lim + d)%Z →
  Allow lim t = (false, lim).
Proof.
  intros Hd Hl Hb Htk Ht. unfold Allow, advance. rewrite Hl, Hb, Htk.
  rewrite refill_amount by done. rewrite Z2Qc_inj_1, Qcplus_0_l.
  assert (Qc_of_Z (t - Z.min (last lim) t) / Qc_of_Z d < 1) as Hlt
    by (apply refill_lt_1; lia).
  rewrite Qcmin_l by (by apply Qclt_le_weak).
  case_decide as H1; [|done]. by apply Qcle_not_lt in H1.
Qed.
End token_bucket.

Section rate_limit.
Implicit Types (sm : SecurityMiddleware) (w : ResponseWriter) (r : Request).

Lemma rps_pos (d : Duration) : 0 < d → rps d = PerSecond (1 / Seconds d)%Qc.
Proof. intros. unfold rps. case_decide; [lia|done]. Qed.

Lemma status_SetHeader w k v : status (SetHeader w k v) = status w.
Proof. done. Qed.

Lemma status_allowOrigin origins origin w :
  status (allowOrigin origins origin w).1 = status w.
Proof.
  induction origins as [|a rest IH]; simpl; [done|].
  by destruct (_ || _).
Qed.

Lemma status_applyCORS sm w r : status (applyCORS sm w r) = status w.
Proof.
  unfold applyCORS. rewrite !status_SetHeader.
  case_decide; [done|]. apply status_allowOrigin.
Qed.

Lemma status_applySecurityHeaders w : status (applySecurityHeaders w) = status w.
Proof. done. Qed.

(** With limiting switched off the check passes and nothing changes. *)
Lemma checkRateLimit_disabled sm now r w :
  RateLimit (config sm) = 0 → checkRateLimit sm now r w = (true, w, sm).
Proof. intros H0. unfold checkRateLimit. by case_decide. Qed.

(** The first request of a client creates its bucket and drains it. *)
Lemma checkRateLimit_first sm now r w :
  0 < RateLimit (config sm) →
  rateLimiters sm !! getClientIP r = None →
  checkRateLimit sm now r w =
    (true, w,
     {| config := config sm;
        rateLimiters := <[getClientIP r := drained (RateLimit (config sm)) (mono now)]>
                          (rateLimiters sm) |}).
Proof.
  intros Hd Hnone. unfold checkRateLimit.
  case_decide; [lia|]. unfold getRateLimiter. rewrite Hnone.
  rewrite (Allow_full (RateLimit (config sm))); simpl;
    [|done|by apply rps_pos|done|by rewrite Z2Qc_inj_1].
  by rewrite insert_insert_eq.
Qed.

(** A request that finds the bucket of its client drained less than one
    interval ago is refused with status 429, whatever comes downstream. *)
Lemma checkRateLimit_throttled sm now r w t :
  0 < RateLimit (config sm) →
  rateLimiters sm !! getClientIP r = Some (drained (RateLimit (config sm)) t) →
  mono now < t + RateLimit (config sm) →
  ∃ w', checkRateLimit sm now r w = (false, w', sm)
        ∧ (status w = None → status w' = Some StatusTooManyRequests).
Proof.
  intros Hd Hsome Ht. unfold checkRateLimit.
  case_decide; [lia|]. unfold getRateLimiter. rewrite Hsome.
  rewrite (Allow_empty (RateLimit (config sm))); simpl;
    [|done|by apply rps_pos|done..].
  rewrite insert_id by done. destruct sm as [cfg m]; simpl.
  eexists; split; [done|]. intros Hw. unfold writeErrorResponse; simpl.
  unfold WriteHeader at 2; simpl. by rewrite Hw.
Qed.

Lemma status_prepared sm w r : status (prepared sm w r) = status w.
Proof.
  unfold prepared. destruct (EnableSecurityHeaders _);
    by rewrite ?status_applySecurityHeaders, status_applyCORS.
Qed.

Lemma Code_okHandler w r : status w = None → Code (okHandler w r) = StatusOK.
Proof. intros H. unfold okHandler, Code, Write, WriteHeader. by rewrite H. Qed.

Lemma Handler_passes sm sm' next now w r :
  checkRateLimit sm now r w = (true, w, sm') →
  Method r ≠ MethodOptions →
  Handler sm next now w r =
    (next (prepared sm' w r) r, sm').
Proof.
  intros Hc Hm. unfold Handler. rewrite Hc; simpl. by case_decide.
Qed.

Lemma Handler_preflight sm sm' next now w r :
  checkRateLimit sm now r w = (true, w, sm') →
  Method r = MethodOptions →
  Handler sm next now w r =
    (WriteHeader (prepared sm' w r) StatusOK, sm').
Proof.
  intros Hc Hm. unfold Handler. rewrite Hc; simpl. by case_decide.
Qed.

Lemma Handler_throttled sm sm' next now w w' r :
  checkRateLimit sm now r w = (false, w', sm') →
  Handler sm next now w r = (w', sm').
Proof. intros Hc. unfold Handler. by rewrite Hc. Qed.

End rate_limit.

Lemma parseRateLimit_60 (env : Environ) :
  env !! "SLACK_MCP_RATE_LIMIT" = Some "60" → parseRateLimit env = Some Second.
Proof. intros H. unfold parseRateLimit, Getenv. by rewrite H. Qed.

(** C1: with the limit set to 60 requests per minute, the first request of a
    client reaches the downstream handler (which answers 200), a second
    request of the same client made before one second has gone by is answered
    429 without the downstream handler, and a request of another client
    passes; every client has a bucket of its own, of capacity one, that the
    request let through has emptied, and [Allow] refuses on the empty bucket. *)
Theorem rate_limit_burst_of_one (env : Environ) (next : GoHTTP.Handler)
    (t1 t2 t3 : Time) (rA rA' rB : Request) :
  env !! "SLACK_MCP_RATE_LIMIT" = Some "60" →
  Method rA ≠ MethodOptions →
  Method rB ≠ MethodOptions →
  getClientIP rA' = getClientIP rA →
  getClientIP rB ≠ getClientIP rA →
  mono t2 < mono t1 + Second →
  ∃ sm0 sm1 sm3 w1 w2 w3,
    NewSecurityMiddleware env = Some sm0
    ∧ rateLimiters sm0 = ∅
    (* first request of client A *)
    ∧ Handler sm0 next t1 NewRecorder rA = (next w1 rA, sm1)
    ∧ status w1 = None
    ∧ Code (okHandler w1 rA) = StatusOK
    ∧ rateLimiters sm1 = {[getClientIP rA := drained Second (mono t1)]}
    ∧ burst (drained Second (mono t1)) = 1
    ∧ tokens (drained Second (mono t1)) = 0%Qc
    (* second request of client A *)
    ∧ (Allow (drained Second (mono t1)) (mono t2)).1 = false
    ∧ (∀ next', Handler sm1 next' t2 NewRecorder rA' = (w2, sm1))
    ∧ Code w2 = StatusTooManyRequests
    (* request of client B *)
    ∧ Handler sm1 next t3 NewRecorder rB = (next w3 rB, sm3)
    ∧ status w3 = None
    ∧ Code (okHandler w3 rB) = StatusOK
    ∧ rateLimiters sm3 =
        <[getClientIP rB := drained Second (mono t3)]>
          {[getClientIP rA := drained Second (mono t1)]}.
Proof.
  intros Henv HmA HmB HA HB Ht.
  pose (cfg := {| CORSOrigins := parseCORSOrigins env;
                  EnableSecurityHeaders := parseSecurityHeaders env;
                  RateLimit := Second |}).
  pose (sm0 := {| config := cfg; rateLimiters := ∅ |}).
  pose (sm1 := {| config := cfg;
                  rateLimiters := {[getClientIP rA := drained Second (mono t1)]} |}).
  pose (sm3 := {| config := cfg;
                  rateLimiters := <[getClientIP rB := drained Second (mono t3)]>
                                    (rateLimiters sm1) |}).
  assert (checkRateLimit sm0 t1 rA NewRecorder = (true, NewRecorder, sm1)) as H1.
  { by rewrite checkRateLimit_first. }
  destruct (checkRateLimit_throttled sm1 t2 rA' NewRecorder (mono t1))
    as (w2 & H2 & Hw2); [done| |done|].
  { rewrite HA. apply lookup_singleton_eq. }
  assert (checkRateLimit sm1 t3 rB NewRecorder = (true, NewRecorder, sm3)) as H3.
  { rewrite checkRateLimit_first; [done..|]. by apply lookup_singleton_ne. }
  eexists sm0, sm1, sm3, _, w2, _.
  split_and!.
  - unfold NewSecurityMiddleware. by rewrite (parseRateLimit_60 env Henv).
  - done.
  - by apply Handler_passes.
  - by rewrite status_prepared.
  - apply Code_okHandler. by rewrite status_prepared.
  - done.
  - done.
  - done.
  - by rewrite (Allow_empty Second); [|done|apply rps_pos|..].
  - intros next'. by apply Handler_throttled.
  - unfold Code. by rewrite Hw2.
  - by apply Handler_passes.
  - by rewrite status_prepared.
  - apply Code_okHandler. by rewrite status_prepared.
  - done.
Qed.

(** The scenario of [TestSecurityMiddleware_RateLimit]: three requests at one
    instant, two of them from 192.168.1.1. *)
Lemma rate_limit_burst_of_one_witness :
  let env : Environ := {["SLACK_MCP_RATE_LIMIT" := "60"]} in
  let t := {| wall := 1700000000000000000; mono := 5000 |} in
  let rA := request "GET" "" "192.168.1.1:12345" in
  let rA' := request "GET" "" "192.168.1.1:12346" in
  let rB := request "GET" "" "192.168.1.2:12345" in
  ∃ sm0 sm1 sm3 w1 w2 w3,
    NewSecurityMiddleware env = Some sm0
    ∧ rateLimiters sm0 = ∅
    ∧ Handler sm0 okHandler t NewRecorder rA = (okHandler w1 rA, sm1)
    ∧ status w1 = None
    ∧ Code (okHandler w1 rA) = StatusOK
    ∧ rateLimiters sm1 = {[getClientIP rA := drained Second (mono t)]}
    ∧ burst (drained Second (mono t)) = 1
    ∧ tokens (drained Second (mono t)) = 0%Qc
    ∧ (Allow (drained Second (mono t)) (mono t)).1 = false
    ∧ (∀ next', Handler sm1 next' t NewRecorder rA' = (w2, sm1))
    ∧ Code w2 = StatusTooManyRequests
    ∧ Handler sm1 okHandler t NewRecorder rB = (okHandler w3 rB, sm3)
    ∧ status w3 = None
    ∧ Code (okHandler w3 rB) = StatusOK
    ∧ rateLimiters sm3 =
        <[getClientIP rB := drained Second (mono t)]>
          {[getClientIP rA := drained Second (mono t)]}.
Proof.
  intros env t rA rA' rB.
  apply (rate_limit_burst_of_one env okHandler t t t rA rA' rB).
  - reflexivity.
  - vm_compute. discriminate.
  - vm_compute. discriminate.
  - reflexivity.
  - vm_compute. discriminate.
  - reflexivity.
Defined.

Section parse_rate_limit.

(** [parseRateLimit] always returns, and its interval lies between zero and
    one minute. *)
Lemma parseRateLimit_total (env : Environ) :
  ∃ d, parseRateLimit env = Some d ∧ 0 ≤ d ≤ Minute.
Proof.
  unfold parseRateLimit. case_decide; [by eexists|].
  destruct (Atoi _) as [n|] eqn:Hn; [|by eexists].
  case_decide; [by eexists|].
  unfold div64. case_decide; [lia|]. eexists; split; [done|].
  assert (0 ≤ Minute `quot` n ≤ Minute) as Hq.
  { rewrite Z.quot_div_nonneg by (unfold Minute, Second; lia).
    split; [apply Z.div_pos; unfold Minute, Second; lia|].
    apply Z.div_le_upper_bound; [lia|]. unfold Minute, Second. nia. }
  unfold wrap64. unfold Minute, Second in *.
  rewrite Z.mod_small; lia.
Qed.

(** A value that is zero or negative selects the default interval. *)
Lemma parseRateLimit_nonpositive (env : Environ) (n : Z) :
  Atoi (Getenv env "SLACK_MCP_RATE_LIMIT") = Some n → n ≤ 0 →
  parseRateLimit env = Some Minute.
Proof.
  intros Hn Hle. unfold parseRateLimit. case_decide; [done|].
  rewrite Hn. by case_decide.
Qed.

Lemma checkAll_disabled (sm : SecurityMiddleware) (batch : list (Time * Request)) :
  RateLimit (config sm) = 0 →
  checkAll sm batch = (replicate (length batch) true, sm).
Proof.
  intros H0. induction batch as [|[now r] rest IH]; simpl; [done|].
  by rewrite checkRateLimit_disabled, IH.
Qed.

End parse_rate_limit.

(** C2, refuted as stated: with [SLACK_MCP_RATE_LIMIT=0] the interval is one
    minute, the first call creates a bucket and the next call of the same
    client at the same instant is refused with status 429. *)
Lemma rate_limit_zero_not_disabled :
  let env : Environ := {["SLACK_MCP_RATE_LIMIT" := "0"]} in
  let t := {| wall := 1700000000000000000; mono := 5000 |} in
  let r := request "GET" "" "192.168.1.1:12345" in
  ∃ sm0, NewSecurityMiddleware env = Some sm0
    ∧ RateLimit (config sm0) = Minute
    ∧ let '(ok1, _, sm1) := checkRateLimit sm0 t r NewRecorder in
      let '(ok2, w2, _) := checkRateLimit sm1 t r NewRecorder in
      ok1 = true ∧ size (rateLimiters sm1) = 1%nat
      ∧ ok2 = false ∧ Code w2 = StatusTooManyRequests.
Proof. intros env t r. eexists. split; [reflexivity|]. by vm_compute. Qed.

(** C2, amended: a value of [SLACK_MCP_RATE_LIMIT] that is zero or negative
    never leads to a division; [parseRateLimit] returns the default interval
    of one minute, so the limiter stays on: the first request of a client
    passes and its next request within the minute is refused.  The limiter
    is off when the configured interval is zero: then any number of
    consecutive calls pass, and the registry stays as it was. *)
Theorem rate_limit_zero_or_negative (env : Environ) (n : Z)
    (sm : SecurityMiddleware) (batch : list (Time * Request))
    (t1 t2 : Time) (r : Request) :
  (Atoi (Getenv env "SLACK_MCP_RATE_LIMIT") = Some n → n ≤ 0 →
   mono t2 < mono t1 + Minute →
   ∃ sm0 sm1 w2,
     NewSecurityMiddleware env = Some sm0
     ∧ RateLimit (config sm0) = Minute
     ∧ checkRateLimit sm0 t1 r NewRecorder = (true, NewRecorder, sm1)
     ∧ rateLimiters sm1 = {[getClientIP r := drained Minute (mono t1)]}
     ∧ checkRateLimit sm1 t2 r NewRecorder = (false, w2, sm1)
     ∧ Code w2 = StatusTooManyRequests)
  ∧ (RateLimit (config sm) = 0 →
     checkAll sm batch = (replicate (length batch) true, sm))
  ∧ is_Some (parseRateLimit env).
Proof.
  split; [|split; [apply checkAll_disabled|]]; last first.
  { destruct (parseRateLimit_total env) as (d & -> & _). by eexists. }
  intros Hn Hle Ht.
  pose (cfg := {| CORSOrigins := parseCORSOrigins env;
                  EnableSecurityHeaders := parseSecurityHeaders env;
                  RateLimit := Minute |}).
  pose (sm0 := {| config := cfg; rateLimiters := ∅ |}).
  pose (sm1 := {| config := cfg;
                  rateLimiters := {[getClientIP r := drained Minute (mono t1)]} |}).
  destruct (checkRateLimit_throttled sm1 t2 r NewRecorder (mono t1))
    as (w2 & H2 & Hw2); [done|apply lookup_singleton_eq|done|].
  exists sm0, sm1, w2. split_and!.
  - unfold NewSecurityMiddleware.
    by rewrite (parseRateLimit_nonpositive env n Hn Hle).
  - done.
  - by rewrite checkRateLimit_first.
  - done.
  - done.
  - unfold Code. by rewrite Hw2.
Qed.

(** The value -10 of the package's tests, and five calls of one client with
    the limiter off, as in [TestSecurityMiddleware_RateLimitDisabled]. *)
Lemma rate_limit_zero_or_negative_witness :
  let env : Environ := {["SLACK_MCP_RATE_LIMIT" := "-10"]} in
  let t := {| wall := 1700000000000000000; mono := 5000 |} in
  let r := request "GET" "" "192.168.1.1:12345" in
  let off := {| config := {| CORSOrigins := []; EnableSecurityHeaders := true;
                             RateLimit := 0 |};
                rateLimiters := ∅ |} in
  (∃ sm0 sm1 w2,
     NewSecurityMiddleware env = Some sm0
     ∧ RateLimit (config sm0) = Minute
     ∧ checkRateLimit sm0 t r NewRecorder = (true, NewRecorder, sm1)
     ∧ rateLimiters sm1 = {[getClientIP r := drained Minute (mono t)]}
     ∧ checkRateLimit sm1 t r NewRecorder = (false, w2, sm1)
     ∧ Code w2 = StatusTooManyRequests)
  ∧ checkAll off [(t, r); (t, r); (t, r); (t, r); (t, r)]
    = ([true; true; true; true; true], off).
Proof.
  intros env t r off.
  pose proof (rate_limit_zero_or_negative env (-10) off
                [(t, r); (t, r); (t, r); (t, r); (t, r)] t t r) as (H1 & H2 & _).
  split.
  - apply H1; [reflexivity|lia|reflexivity].
  - apply H2. reflexivity.
Defined.

Section pipeline.
Implicit Types (sm : SecurityMiddleware) (w : ResponseWriter) (r : Request).

(** What [checkRateLimit] can do to the writer: nothing when it lets the
    request pass, an answer of status 429 when it refuses. *)
Lemma checkRateLimit_writer sm now r w :
  ∃ ok w' sm', checkRateLimit sm now r w = (ok, w', sm')
    ∧ (ok = true → w' = w)
    ∧ (ok = false → status w = None → status w' = Some StatusTooManyRequests).
Proof.
  unfold checkRateLimit. case_decide; [by eexists _, _, _|].
  destruct (getRateLimiter _ _) as [limiter sm1].
  destruct (Allow _ _) as [[] limiter']; simpl; eexists _, _, _;
    (split; [done|split; [done|]]); [done|].
  intros _ Hw. unfold writeErrorResponse, Write, WriteHeader; simpl.
  by rewrite Hw.
Qed.

End pipeline.

(** C4, refuted as stated: a preflight request that the rate limiter refuses
    is answered 429, not 200. *)
Lemma preflight_throttled :
  let env : Environ := {["SLACK_MCP_RATE_LIMIT" := "60"]} in
  let t := {| wall := 1700000000000000000; mono := 5000 |} in
  let r := request "OPTIONS" "https://example.com" "192.168.1.1:12345" in
  ∃ sm0, NewSecurityMiddleware env = Some sm0
    ∧ let '(w1, sm1) := Handler sm0 okHandler t NewRecorder r in
      let '(w2, _) := Handler sm1 okHandler t NewRecorder r in
      Method r = MethodOptions
      ∧ Code w1 = StatusOK
      ∧ Code w2 = StatusTooManyRequests.
Proof. intros env t r. eexists. split; [reflexivity|]. by vm_compute. Qed.

(** C4, amended: a request of method OPTIONS never reaches the downstream
    handler; it is answered 200 when the rate limiter lets it pass, whatever the
    CORS outcome, and 429 when the rate limiter refuses it. *)
Theorem preflight_short_circuit (sm : SecurityMiddleware) (now : Time)
    (w : ResponseWriter) (r : Request) :
  Method r = MethodOptions →
  status w = None →
  ∃ w' sm',
    (∀ next, Handler sm next now w r = (w', sm'))
    ∧ Code w' = if (checkRateLimit sm now r w).1.1
                then StatusOK else StatusTooManyRequests.
Proof.
  intros Hm Hw.
  destruct (checkRateLimit_writer sm now r w) as (ok & w0 & sm' & Hc & Hok & Hko).
  rewrite Hc; simpl. destruct ok.
  - rewrite (Hok eq_refl) in Hc.
    exists (WriteHeader (prepared sm' w r) StatusOK), sm'. split.
    + intros next. by apply Handler_preflight.
    + unfold Code, WriteHeader. by rewrite status_prepared, Hw.
  - exists w0, sm'. split.
    + intros next. by apply Handler_throttled.
    + unfold Code. by rewrite (Hko eq_refl Hw).
Qed.

(** A preflight request from an origin that is not on the allow-list. *)
Lemma preflight_short_circuit_witness :
  let sm := {| config := {| CORSOrigins := ["https://allowed.com"];
                            EnableSecurityHeaders := true;
                            RateLimit := Second |};
               rateLimiters := ∅ |} in
  let t := {| wall := 1700000000000000000; mono := 5000 |} in
  let r := request "OPTIONS" "https://blocked.com" "192.168.1.1:12345" in
  ∃ w' sm',
    (∀ next, Handler sm next t NewRecorder r = (w', sm'))
    ∧ Code w' = if (checkRateLimit sm t r NewRecorder).1.1
                then StatusOK else StatusTooManyRequests.
Proof.
  intros sm t r.
  apply (preflight_short_circuit sm t NewRecorder r); reflexivity.
Defined.

Section headers.
Implicit Types (sm : SecurityMiddleware) (w : ResponseWriter) (r : Request)
  (h : Header).

Lemma Values_Set h k v k' :
  Values (Set_ h k v) k' =
    if decide (CanonicalMIMEHeaderKey k = CanonicalMIMEHeaderKey k')
    then Some [v] else Values h k'.
Proof. unfold Values, Set_. by rewrite lookup_insert. Qed.

Lemma hdr_SetHeader w k v : hdr (SetHeader w k v) = Set_ (hdr w) k v.
Proof. done. Qed.

Lemma config_checkRateLimit sm now r w :
  config (checkRateLimit sm now r w).2 = config sm.
Proof.
  unfold checkRateLimit. case_decide; [done|].
  unfold getRateLimiter. destruct (rateLimiters sm !! _); simpl;
    destruct (Allow _ _) as [[] ?]; done.
Qed.

(** The loop over the allow-list sets the header exactly when some entry is
    the wildcard or the origin. *)
Lemma allowOrigin_spec origins origin w :
  allowOrigin origins origin w =
    if decide (Exists (λ e, e = "*" ∨ e = origin) origins)
    then (SetHeader w "Access-Control-Allow-Origin" origin, true)
    else (w, false).
Proof.
  induction origins as [|a rest IH]; cbn [allowOrigin].
  - rewrite decide_False; [done|]. by intros ?%Exists_nil.
  - destruct (bool_decide (a = "*") || bool_decide (a = origin)) eqn:Ha.
    + rewrite decide_True; [done|]. apply Exists_cons_hd.
      apply orb_true_iff in Ha as [?%bool_decide_eq_true|?%bool_decide_eq_true]; auto.
    + apply orb_false_iff in Ha as [?%bool_decide_eq_false ?%bool_decide_eq_false].
      rewrite IH. case_decide as H1; case_decide as H2; try done.
      * destruct H2. by apply Exists_cons_tl.
      * apply Exists_cons in H2 as [[?|?]|?]; done.
Qed.

End headers.

(** Decide the equations between canonical header keys that a lookup through
    a chain of [Set] raises. *)
Ltac header_keys :=
  repeat (rewrite ?hdr_SetHeader, ?Values_Set;
          match goal with
          | |- context [decide (CanonicalMIMEHeaderKey ?a = CanonicalMIMEHeaderKey ?b)] =>
              first [ rewrite (decide_True (P := CanonicalMIMEHeaderKey a = CanonicalMIMEHeaderKey b))
                        by (vm_compute; reflexivity)
                    | rewrite (decide_False (P := CanonicalMIMEHeaderKey a = CanonicalMIMEHeaderKey b))
                        by (vm_compute; discriminate) ]
          end).

Section cors.
Implicit Types (sm : SecurityMiddleware) (w : ResponseWriter) (r : Request).

(** The value [applyCORS] leaves under [Access-Control-Allow-Origin]. *)
Lemma applyCORS_allow_origin sm w r :
  Values (hdr (applyCORS sm w r)) "Access-Control-Allow-Origin" =
    if decide (CORSOrigins (config sm) = []) then Some ["*"]
    else if decide (Exists (λ e, e = "*" ∨ e = Get (ReqHeader r) "Origin")
                      (CORSOrigins (config sm)))
         then Some [Get (ReqHeader r) "Origin"]
         else Values (hdr w) "Access-Control-Allow-Origin".
Proof.
  unfold applyCORS. header_keys.
  destruct (CORSOrigins (config sm)) as [|a rest] eqn:Hl; simpl length.
  - rewrite decide_True by done. rewrite decide_True by done. by header_keys.
  - rewrite (decide_False (P := S _ = 0%nat)) by done.
    rewrite (decide_False (P := _ :: _ = [])) by done.
    rewrite allowOrigin_spec. case_decide; simpl; by header_keys.
Qed.

Lemma prepared_allow_origin sm w r :
  Values (hdr (prepared sm w r)) "Access-Control-Allow-Origin" =
  Values (hdr (applyCORS sm w r)) "Access-Control-Allow-Origin".
Proof.
  unfold prepared. destruct (EnableSecurityHeaders _); [|done].
  unfold applySecurityHeaders. by header_keys.
Qed.

End cors.

(** C3: [applyCORS] treats the header [Access-Control-Allow-Origin] by three
    cases: an empty allow-list sets it to the wildcard, whatever the origin;
    otherwise an entry that is the wildcard or the origin of the request sets
    it to that origin as the request gives it (so to the wildcard only for a
    request whose origin is the wildcard itself); otherwise it is left as it
    was, which is absent on a writer nothing was written to.  In every case
    the request goes on: if the rate limiter lets it pass and it is no
    preflight, the downstream handler gets it, with the header as said. *)
Theorem cors_three_cases (sm : SecurityMiddleware) (w : ResponseWriter)
    (r : Request) (next : GoHTTP.Handler) (now : Time) :
  let origin := Get (ReqHeader r) "Origin" in
  let allow_origin h := Values h "Access-Control-Allow-Origin" in
  let outcome :=
    if decide (CORSOrigins (config sm) = []) then Some ["*"]
    else if decide (Exists (λ e, e = "*" ∨ e = origin) (CORSOrigins (config sm)))
         then Some [origin]
         else allow_origin (hdr w) in
  allow_origin (hdr (applyCORS sm w r)) = outcome
  ∧ allow_origin (hdr NewRecorder) = None
  ∧ (origin ≠ "*" → CORSOrigins (config sm) ≠ [] →
     allow_origin (hdr (applyCORS sm NewRecorder r)) ≠ Some ["*"])
  ∧ (Method r ≠ MethodOptions →
     (checkRateLimit sm now r w).1.1 = true →
     ∃ w1 sm1,
       Handler sm next now w r = (next w1 r, sm1)
       ∧ status w1 = status w
       ∧ allow_origin (hdr w1) = outcome).
Proof.
  intros origin allow_origin outcome. split_and!.
  - apply applyCORS_allow_origin.
  - done.
  - intros Ho Hl. unfold allow_origin. rewrite applyCORS_allow_origin.
    rewrite decide_False by done. fold origin.
    case_decide; [|done]. by intros [= ?].
  - intros Hm Hok.
    destruct (checkRateLimit_writer sm now r w) as (ok & w0 & sm1 & Hc & Hw & _).
    pose proof (config_checkRateLimit sm now r w) as Hcfg.
    rewrite Hc in Hok, Hcfg; simpl in Hok, Hcfg. subst ok.
    rewrite (Hw eq_refl) in Hc.
    exists (prepared sm1 w r), sm1. split_and!.
    + by apply Handler_passes.
    + apply status_prepared.
    + unfold allow_origin. rewrite prepared_allow_origin, applyCORS_allow_origin.
      by rewrite Hcfg.
Qed.

(** The origin [https://c.com] against the allow-list of [https://a.com] and
    [https://b.com]: no header, and the downstream handler runs. *)
Lemma cors_three_cases_witness :
  let sm := {| config := {| CORSOrigins := ["https://a.com"; "https://b.com"];
                            EnableSecurityHeaders := true;
                            RateLimit := Second |};
               rateLimiters := ∅ |} in
  let t := {| wall := 1700000000000000000; mono := 5000 |} in
  let r := request "GET" "https://c.com" "192.168.1.1:12345" in
  ∃ w1 sm1,
    Handler sm okHandler t NewRecorder r = (okHandler w1 r, sm1)
    ∧ status w1 = None
    ∧ Values (hdr w1) "Access-Control-Allow-Origin" = None.
Proof.
  intros sm t r.
  destruct (cors_three_cases sm NewRecorder r okHandler t) as (_ & _ & _ & H).
  apply H.
  - vm_compute. discriminate.
  - reflexivity.
Defined.

Section security_headers.
Implicit Types (sm : SecurityMiddleware) (w : ResponseWriter) (r : Request).

(** [applyCORS] leaves the five security headers alone. *)
Lemma applyCORS_security_headers sm w r k :
  k ∈ ["X-Content-Type-Options"; "X-Frame-Options"; "X-XSS-Protection";
       "Referrer-Policy"; "Content-Security-Policy"] →
  Values (hdr (applyCORS sm w r)) k = Values (hdr w) k.
Proof.
  intros Hk. unfold applyCORS. rewrite allowOrigin_spec.
  repeat (apply elem_of_cons in Hk as [->|Hk]);
    [..|by apply elem_of_nil in Hk];
    header_keys; repeat case_decide; simpl; by header_keys.
Qed.

End security_headers.

(** C8: in a response that was not throttled, and whose downstream handler
    leaves the five security headers alone, none of the five is present when
    the flag is off, and all five are present with their fixed values when
    the flag is on. *)
Theorem security_headers_toggle (sm : SecurityMiddleware)
    (next : GoHTTP.Handler) (now : Time) (r : Request) :
  let five := ["X-Content-Type-Options"; "X-Frame-Options"; "X-XSS-Protection";
               "Referrer-Policy"; "Content-Security-Policy"] in
  let response := ResponseHeader (Handler sm next now NewRecorder r).1 in
  (checkRateLimit sm now r NewRecorder).1.1 = true →
  (∀ w k, k ∈ five → status w = None →
          Values (ResponseHeader (next w r)) k = Values (hdr w) k) →
  if EnableSecurityHeaders (config sm)
  then Values response "X-Content-Type-Options" = Some ["nosniff"]
       ∧ Values response "X-Frame-Options" = Some ["DENY"]
       ∧ Values response "X-XSS-Protection" = Some ["1; mode=block"]
       ∧ Values response "Referrer-Policy" = Some ["strict-origin-when-cross-origin"]
       ∧ Values response "Content-Security-Policy" =
           Some ["default-src 'self'; script-src 'self'; style-src 'self' 'unsafe-inline'"]
  else ∀ k, k ∈ five → Values response k = None.
Proof.
  intros five response Hok Hnext.
  destruct (checkRateLimit_writer sm now r NewRecorder)
    as (ok & w0 & sm1 & Hc & Hw & _).
  pose proof (config_checkRateLimit sm now r NewRecorder) as Hcfg.
  rewrite Hc in Hok, Hcfg; simpl in Hok, Hcfg. subst ok.
  rewrite (Hw eq_refl) in Hc.
  assert (∀ k, k ∈ five →
            Values response k = Values (hdr (prepared sm1 NewRecorder r)) k) as Hresp.
  { intros k Hk. unfold response.
    destruct (decide (Method r = MethodOptions)) as [Hm|Hm].
    - rewrite (Handler_preflight _ sm1) by done. simpl.
      unfold ResponseHeader, WriteHeader. by rewrite status_prepared.
    - rewrite (Handler_passes _ sm1) by done. simpl.
      apply Hnext; [done|]. by rewrite status_prepared. }
  unfold prepared in Hresp. rewrite Hcfg in Hresp.
  destruct (EnableSecurityHeaders (config sm)).
  - split_and!; (rewrite Hresp by (unfold five; set_solver));
      unfold applySecurityHeaders; by header_keys.
  - intros k Hk. rewrite Hresp by done.
    by rewrite applyCORS_security_headers.
Qed.

(** The test handler downstream, with the flag on and with the flag off. *)
Lemma security_headers_toggle_witness :
  let sm b := {| config := {| CORSOrigins := []; EnableSecurityHeaders := b;
                              RateLimit := Second |};
                 rateLimiters := ∅ |} in
  let t := {| wall := 1700000000000000000; mono := 5000 |} in
  let r := request "GET" "" "192.168.1.1:12345" in
  Values (ResponseHeader (Handler (sm true) okHandler t NewRecorder r).1)
    "Content-Security-Policy"
  = Some ["default-src 'self'; script-src 'self'; style-src 'self' 'unsafe-inline'"]
  ∧ Values (ResponseHeader (Handler (sm false) okHandler t NewRecorder r).1)
      "Content-Security-Policy" = None.
Proof.
  intros sm t r.
  assert (∀ w k,
            k ∈ ["X-Content-Type-Options"; "X-Frame-Options"; "X-XSS-Protection";
                 "Referrer-Policy"; "Content-Security-Policy"] →
            status w = None →
            Values (ResponseHeader (okHandler w r)) k = Values (hdr w) k) as Hnext.
  { intros w k _ Hw. unfold okHandler, ResponseHeader, Write, WriteHeader.
    rewrite Hw. reflexivity. }
  split.
  - apply (security_headers_toggle (sm true) okHandler t r eq_refl Hnext).
  - apply (security_headers_toggle (sm false) okHandler t r eq_refl Hnext).
    vm_compute. set_solver.
Defined.

Section health.
Implicit Types (h : HealthChecker) (sys : Sys) (w : ResponseWriter).

(** Either check ends without a panic, in one of the two check states. *)
Lemma checkCacheSystem_result h :
  ∃ s, result (checkCacheSystem h) = Some s
       ∧ (s = CheckStatusOK ∨ s = CheckStatusError)
       ∧ (provider h = None → s = CheckStatusError ∧ calls (checkCacheSystem h) = []).
Proof.
  unfold checkCacheSystem. destruct (provider h) as [[[ready err] client]|]; simpl.
  - destruct err, ready; simpl; eexists; split_and!; eauto; naive_solver.
  - eexists; split_and!; eauto.
Qed.

Lemma checkSlackAPI_result h sys :
  ∃ s, result (checkSlackAPI h sys) = Some s
       ∧ (s = CheckStatusOK ∨ s = CheckStatusError)
       ∧ (provider h = None → s = CheckStatusError ∧ calls (checkSlackAPI h sys) = [])
       ∧ (∀ p, provider h = Some p → Slack p = None → s = CheckStatusError).
Proof.
  unfold checkSlackAPI.
  destruct (provider h) as [[rdy [[err]|]]|]; simpl.
  - destruct (_ || _); simpl; [eexists; split_and!; eauto; naive_solver|].
    destruct err; simpl; eexists; split_and!; eauto; naive_solver.
  - eexists; split_and!; eauto; naive_solver.
  - eexists; split_and!; eauto; naive_solver.
Qed.

(** The document of [performHealthChecks], from the states of its checks. *)
Lemma performHealthChecks_result h sys includeReadiness :
  ∃ cache slack,
    result (checkCacheSystem h) = Some cache
    ∧ result (checkSlackAPI h sys) = Some slack
    ∧ result (performHealthChecks h sys includeReadiness) =
        Some {| Status :=
                  if decide (cache = CheckStatusError) then HealthStatusUnhealthy
                  else if includeReadiness && bool_decide (slack = CheckStatusError)
                       then HealthStatusUnhealthy else HealthStatusHealthy;
                Timestamp := now sys;
                Version := version sys;
                Checks :=
                  if includeReadiness
                  then <["slack_api" := slack]> {["cache" := cache]}
                  else {["cache" := cache]};
                Uptime := Some (Since (now sys) (startTime h));
                Details :=
                  let d : gmap string string :=
                    if decide (cache = CheckStatusError)
                    then {["cache" := "Cache system not ready"]} else ∅ in
                  if includeReadiness && bool_decide (slack = CheckStatusError)
                  then <["slack_api" := "Slack API connectivity failed"]> d
                  else d |}.
Proof.
  destruct (checkCacheSystem_result h) as (cache & Hc & Hcs & _).
  destruct (checkSlackAPI_result h sys) as (slack & Hs & Hss & _).
  exists cache, slack. split_and!; [done|done|].
  unfold performHealthChecks.
  destruct (checkCacheSystem h) as [rc cc], (checkSlackAPI h sys) as [rs cs].
  simpl in Hc, Hs. subst rc rs.
  destruct includeReadiness, Hcs as [->| ->], Hss as [->| ->]; done.
Qed.

End health.

Section rendering.
Implicit Types (h : HealthChecker) (sys : Sys) (w : ResponseWriter)
  (response : HealthResponse).

(** The status line is written before the document is encoded, and no later
    call can change it: the answer is 503 for an unhealthy document and 200
    for any other, whether or not the encoding succeeds. *)
Lemma writeHealthResponse_code w response :
  status w = None →
  Code (writeHealthResponse w response) =
    if decide (Status response = HealthStatusUnhealthy)
    then StatusServiceUnavailable else StatusOK.
Proof.
  intros Hw. unfold writeHealthResponse, Encode.
  destruct (marshalHealthResponse response);
    case_decide; unfold Code, Error, Write, WriteHeader; simpl; by rewrite Hw.
Qed.

Lemma body_WriteHeader w c : body (WriteHeader w c) = body w.
Proof. unfold WriteHeader. by destruct (status w). Qed.

Lemma body_Write w b : body (Write w b) = body w ++ [b].
Proof. unfold Write. simpl. by rewrite body_WriteHeader. Qed.

(** What is written for a document that marshals. *)
Lemma writeHealthResponse_body w response j :
  marshalHealthResponse response = Some j →
  body (writeHealthResponse w response) = body w ++ [Doc j].
Proof.
  intros Hj. unfold writeHealthResponse, Encode. rewrite Hj.
  by case_decide; rewrite body_Write, body_WriteHeader.
Qed.

Lemma marshalHealthResponse_uptime response :
  year0 ≤ wall (Timestamp response) < year10000 →
  ∃ j, marshalHealthResponse response = Some j
       ∧ has_field j "uptime" = bool_decide (is_Some (Uptime response)).
Proof.
  intros Ht. unfold marshalHealthResponse, marshalTime.
  rewrite (decide_True (P := _ ∧ _)) by done. simpl. eexists; split; [done|].
  unfold has_field.
  by destruct (Uptime response), (decide (Details response = ∅)).
Qed.

End rendering.

(** C5: the document of [performHealthChecks] is healthy exactly when every
    entry of its checks is ok, and the document of the liveness handler has
    the one check entry [application], which is ok. *)
Theorem health_status_iff_checks (h : HealthChecker) (sys : Sys)
    (includeReadiness : bool) (w : ResponseWriter) (r : Request) :
  (∃ response,
     result (performHealthChecks h sys includeReadiness) = Some response
     ∧ (Status response = HealthStatusHealthy
        ↔ map_Forall (λ _ s, s = CheckStatusOK) (Checks response)))
  ∧ result (LivenessHandler h sys w r)
    = Some (writeHealthResponse w (livenessResponse h sys))
  ∧ Checks (livenessResponse h sys) = {["application" := CheckStatusOK]}.
Proof.
  split; [|done].
  destruct (checkCacheSystem_result h) as (cache & Hc & Hcs & _).
  destruct (checkSlackAPI_result h sys) as (slack & Hs & Hss & _).
  destruct (performHealthChecks_result h sys includeReadiness)
    as (cache' & slack' & Hc' & Hs' & ->).
  rewrite Hc in Hc'. rewrite Hs in Hs'. simplify_eq.
  eexists; split; [done|]. simpl.
  destruct includeReadiness, Hcs as [->| ->], Hss as [->| ->]; simpl;
    (split; [intros ?; try done|intros Hall]);
    rewrite ?map_Forall_insert, ?map_Forall_singleton by done; try done;
    try (exfalso; by apply map_Forall_insert in Hall as [? ?%map_Forall_singleton]);
    try (exfalso; by apply map_Forall_singleton in Hall).
Qed.

(** A readiness run in which the cache is ready and the probe times out. *)
Lemma health_status_iff_checks_witness :
  let h := {| provider := Some {| IsReady := (true, None);
                                  Slack := Some {| AuthTestContext := Some "timeout" |} |};
              startTime := {| wall := 1699999999000000000; mono := 4000 |} |} in
  let sys := {| environ := ∅; version := "v1.0.0";
                now := {| wall := 1700000000000000000; mono := 9000 |} |} in
  ∃ response,
    result (performHealthChecks h sys true) = Some response
    ∧ (Status response = HealthStatusHealthy
       ↔ map_Forall (λ _ s, s = CheckStatusOK) (Checks response)).
Proof.
  intros h sys.
  exact (proj1 (health_status_iff_checks h sys true NewRecorder
                  (request "GET" "" "192.168.1.1:12345"))).
Defined.

(** C6, where the code falls short of it: for a document that does not
    marshal (here one whose timestamp lies in the year 10000),
    [writeHealthResponse] has already written the status line of a healthy
    document when it turns to [http.Error], so the client gets status 200 and
    the content type of a JSON document, with the plain text of the error as
    the body; for an unhealthy document of that kind it gets 503. *)
Lemma encode_failure_keeps_status :
  let document s :=
    {| Status := s;
       Timestamp := {| wall := year10000; mono := 0 |};
       Version := "v1.0.0";
       Checks := {["application" := CheckStatusOK]};
       Uptime := Some Second;
       Details := ∅ |} in
  let w := writeHealthResponse NewRecorder (document HealthStatusHealthy) in
  let w' := writeHealthResponse NewRecorder (document HealthStatusUnhealthy) in
  marshalHealthResponse (document HealthStatusHealthy) = None
  ∧ Code w = StatusOK
  ∧ Code w ≠ StatusInternalServerError
  ∧ Values (ResponseHeader w) "Content-Type" = Some ["application/json"]
  ∧ body w = [Text ("Internal server error" +:+ String "010"%char "")]
  ∧ Code w' = StatusServiceUnavailable.
Proof. intros document w w'. by vm_compute. Qed.



(** C9, refuted as stated: the document of the basic health endpoint carries
    an uptime. *)
Lemma basic_health_carries_uptime :
  let h := {| provider := Some {| IsReady := (true, None); Slack := None |};
              startTime := {| wall := 1699999999000000000; mono := 4000 |} |} in
  let sys := {| environ := ∅; version := "v1.0.0";
                now := {| wall := 1700000000000000000; mono := 9000 |} |} in
  let r := request "GET" "" "192.168.1.1:12345" in
  ∃ w j,
    result (HealthHandler h sys NewRecorder r) = Some w
    ∧ body w = [Doc j]
    ∧ j = JObject [("status", JString "healthy");
                   ("timestamp", JTime 1700000000000000000);
                   ("version", JString "v1.0.0");
                   ("checks", JObject [("cache", JString "ok")]);
                   ("uptime", JNumber 5000)]
    ∧ has_field j "uptime" = true.
Proof. intros h sys r. eexists _, _. by vm_compute. Qed.

(** C9, amended: the documents of all three endpoints (health, readiness and
    liveness) carry the uptime, the time on the monotonic clock since the
    checker was made; it is rendered under the name [uptime] whenever the
    document is. *)
Theorem uptime_in_every_variant (h : HealthChecker) (sys : Sys)
    (includeReadiness : bool) (w : ResponseWriter) (r : Request) :
  year0 ≤ wall (now sys) < year10000 →
  let handler := if includeReadiness then ReadinessHandler else HealthHandler in
  (∃ response j,
     result (performHealthChecks h sys includeReadiness) = Some response
     ∧ Uptime response = Some (Since (now sys) (startTime h))
     ∧ result (handler h sys w r) = Some (writeHealthResponse w response)
     ∧ body (writeHealthResponse w response) = body w ++ [Doc j]
     ∧ has_field j "uptime" = true)
  ∧ (∃ j,
       Uptime (livenessResponse h sys) = Some (Since (now sys) (startTime h))
       ∧ result (LivenessHandler h sys w r)
         = Some (writeHealthResponse w (livenessResponse h sys))
       ∧ body (writeHealthResponse w (livenessResponse h sys)) = body w ++ [Doc j]
       ∧ has_field j "uptime" = true).
Proof.
  intros Hy handler. split.
  - destruct (performHealthChecks_result h sys includeReadiness)
      as (cache & slack & _ & _ & Hr).
    set (response := mkHealthResponse _ _ _ _ _ _) in Hr.
    destruct (marshalHealthResponse_uptime response Hy) as (j & Hj & Hf).
    exists response, j. split_and!; [done|done| |by apply writeHealthResponse_body|done].
    unfold handler, ReadinessHandler, HealthHandler.
    destruct includeReadiness;
      destruct (performHealthChecks h sys _) as [res cs];
      simpl in Hr; by subst res.
  - destruct (marshalHealthResponse_uptime (livenessResponse h sys) Hy)
      as (j & Hj & Hf).
    exists j. split_and!; [done|done|by apply writeHealthResponse_body|done].
Qed.

(** The basic health endpoint, 5000 ns after the checker was made. *)
Lemma uptime_in_every_variant_witness :
  let h := {| provider := Some {| IsReady := (true, None); Slack := None |};
              startTime := {| wall := 1699999999000000000; mono := 4000 |} |} in
  let sys := {| environ := ∅; version := "v1.0.0";
                now := {| wall := 1700000000000000000; mono := 9000 |} |} in
  let r := request "GET" "" "192.168.1.1:12345" in
  ∃ response j,
    result (performHealthChecks h sys false) = Some response
    ∧ Uptime response = Some 5000
    ∧ result (HealthHandler h sys NewRecorder r)
      = Some (writeHealthResponse NewRecorder response)
    ∧ body (writeHealthResponse NewRecorder response) = [Doc j]
    ∧ has_field j "uptime" = true.
Proof.
  intros h sys r.
  destruct (uptime_in_every_variant h sys false NewRecorder r) as [H _].
  - vm_compute. split; [discriminate|reflexivity].
  - exact H.
Defined.

(** C10: no health, readiness or liveness invocation panics; without a
    provider every check of the document reports an error and no call is
    made; with a provider that has no Slack client the check of the Slack API
    reports an error. *)
Theorem nil_provider_reports_error (h : HealthChecker) (sys : Sys)
    (includeReadiness : bool) (w : ResponseWriter) (r : Request) :
  (is_Some (result (HealthHandler h sys w r))
   ∧ is_Some (result (ReadinessHandler h sys w r))
   ∧ is_Some (result (LivenessHandler h sys w r)))
  ∧ (provider h = None →
     ∃ response,
       performHealthChecks h sys includeReadiness
         = {| result := Some response; calls := [] |}
       ∧ Checks response !! "cache" = Some CheckStatusError
       ∧ (includeReadiness = true →
          Checks response !! "slack_api" = Some CheckStatusError)
       ∧ map_Forall (λ _ s, s = CheckStatusError) (Checks response)
       ∧ Status response = HealthStatusUnhealthy)
  ∧ (∀ p, provider h = Some p → Slack p = None →
     ∃ response,
       result (performHealthChecks h sys true) = Some response
       ∧ Checks response !! "slack_api" = Some CheckStatusError
       ∧ Status response = HealthStatusUnhealthy).
Proof.
  split; [|split].
  - split; [|split; [|done]]; unfold HealthHandler, ReadinessHandler;
      [destruct (performHealthChecks_result h sys false) as (? & ? & _ & _ & Hr)
      |destruct (performHealthChecks_result h sys true) as (? & ? & _ & _ & Hr)];
      destruct (performHealthChecks _ _ _) as [res cs]; simpl in Hr; subst res;
      by eexists.
  - intros Hp. destruct h as [p st]; simpl in Hp; subst p.
    destruct includeReadiness; (eexists; split; [done|]); simpl;
      split_and!; try done.
    + intros k s. rewrite lookup_insert. case_decide; [naive_solver|].
      rewrite lookup_insert. case_decide; naive_solver.
    + intros k s. rewrite lookup_insert. case_decide; naive_solver.
  - intros p Hp Hs. destruct h as [p' st]; simpl in Hp; subst p'.
    destruct p as [[ready err] client]; simpl in Hs; subst client.
    destruct ready, err; by eexists.
Qed.

(** A readiness run of a checker without provider. *)
Lemma nil_provider_reports_error_witness :
  let h := {| provider := None;
              startTime := {| wall := 1699999999000000000; mono := 4000 |} |} in
  let sys := {| environ := ∅; version := "v1.0.0";
                now := {| wall := 1700000000000000000; mono := 9000 |} |} in
  ∃ response,
    performHealthChecks h sys true = {| result := Some response; calls := [] |}
    ∧ Checks response !! "cache" = Some CheckStatusError
    ∧ Checks response !! "slack_api" = Some CheckStatusError.
Proof.
  intros h sys.
  destruct (nil_provider_reports_error h sys true NewRecorder
              (request "GET" "" "192.168.1.1:12345")) as (_ & H & _).
  destruct (H eq_refl) as (response & H1 & H2 & H3 & _).
  exists response. split_and!; [exact H1|exact H2|exact (H3 eq_refl)].
Defined.

(** ** Further properties of the middleware, the probes and the configuration *)

Import Registry HealthSwitch.

Section registry.
Implicit Types (sm : SecurityMiddleware) (w : ResponseWriter) (r : Request)
  (lim : Limiter).
Local Open Scope Qc_scope.

(** The stages after the rate-limit check leave the registry alone. *)
Lemma Handler_registry_eq sm next now w r :
  (Handler sm next now w r).2 = (checkRateLimit sm now r w).2.
Proof.
  unfold Handler. destruct (checkRateLimit sm now r w) as [[[] w0] sm']; simpl;
    [by case_decide|done].
Qed.

Lemma Qcmin_le_r (x y : Qc) : Qcmin x y ≤ y.
Proof. unfold Qcmin. case_decide; [done|apply Qcle_refl]. Qed.

Lemma Allow_bucket_ok d lim t : bucket_ok d lim → bucket_ok d (Allow lim t).2.
Proof.
  intros (Hl & Hb & Htk). unfold Allow.
  destruct (limit lim) as [|q] eqn:Hq; [by rewrite <-Hq in Hl|].
  case_decide as H1; simpl; [|by rewrite <-Hq in Hl].
  split; [done|]. split; [done|].
  assert (advance lim q t = 1) as ->.
  { apply Qcle_antisym; [|done]. unfold advance.
    rewrite Hb, Z2Qc_inj_1. apply Qcmin_le_r. }
  unfold Qcminus. by rewrite Qcplus_opp_r.
Qed.

Lemma NewLimiter_bucket_ok d : bucket_ok d (NewLimiter (rps d) 1).
Proof.
  unfold bucket_ok, NewLimiter; simpl. rewrite Z2Qc_inj_1.
  split_and!; [done..|apply Qcle_refl].
Qed.

(** One call of [checkRateLimit] with the limiter on: the bucket of the
    client is the only entry that is added or changed. *)
Lemma checkRateLimit_registry sm now r w :
  Middleware.RateLimit (config sm) ≠ 0%Z →
  ∃ lim,
    (checkRateLimit sm now r w).2 =
      {| config := config sm;
         rateLimiters := <[getClientIP r := lim]> (rateLimiters sm) |}
    ∧ (map_Forall (λ _, bucket_ok (Middleware.RateLimit (config sm))) (rateLimiters sm) →
       bucket_ok (Middleware.RateLimit (config sm)) lim).
Proof.
  intros Hd. unfold checkRateLimit. case_decide; [done|].
  unfold getRateLimiter.
  destruct (rateLimiters sm !! getClientIP r) as [lim0|] eqn:Hlk; simpl.
  - pose proof (Allow_bucket_ok (Middleware.RateLimit (config sm)) lim0 (mono now)) as Hok.
    destruct (Allow lim0 (mono now)) as [[] lim']; simpl in *;
      (eexists; split; [done|]); intros Hall; apply Hok; by eapply Hall.
  - pose proof (Allow_bucket_ok (Middleware.RateLimit (config sm))
                  (NewLimiter (rps (Middleware.RateLimit (config sm))) 1) (mono now)
                  (NewLimiter_bucket_ok _)) as Hok.
    destruct (Allow _ (mono now)) as [[] lim']; simpl in *;
      rewrite insert_insert_eq; by eexists.
Qed.

End registry.

(** X1: with the limiter on, serving a request changes nothing of the
    middleware but the bucket of the client of that request: the
    configuration stays, the registry gains the key of the client (if it was
    not there) and loses none, and the buckets of all other clients are as
    before.  With the limiter off the middleware is unchanged. *)
Theorem Handler_registry_frame (sm : SecurityMiddleware) (next : GoHTTP.Handler)
    (now : Time) (w : ResponseWriter) (r : Request) :
  let sm' := (Handler sm next now w r).2 in
  (Middleware.RateLimit (config sm) = 0 → sm' = sm)
  ∧ (Middleware.RateLimit (config sm) ≠ 0 →
     config sm' = config sm
     ∧ dom (rateLimiters sm') = {[getClientIP r]} ∪ dom (rateLimiters sm)
     ∧ ∀ ip, ip ≠ getClientIP r → rateLimiters sm' !! ip = rateLimiters sm !! ip).
Proof.
  intros sm'. unfold sm'. rewrite Handler_registry_eq. split.
  - intros H0. by rewrite checkRateLimit_disabled.
  - intros Hd. destruct (checkRateLimit_registry sm now r w Hd) as (lim & -> & _).
    simpl. split_and!; [done|by rewrite dom_insert_L|].
    intros ip Hip. by rewrite lookup_insert_ne.
Qed.

Lemma Handler_registry_frame_witness :
  let sm := {| config := {| Middleware.CORSOrigins := [];
                            EnableSecurityHeaders := true;
                            Middleware.RateLimit := Second |};
               rateLimiters := {["10.0.0.7" := drained Second 0]} |} in
  let t := {| wall := 1700000000000000000; mono := 5000 |} in
  let r := request "GET" "" "192.168.1.1:12345" in
  let sm' := (Handler sm okHandler t NewRecorder r).2 in
  dom (rateLimiters sm') = {["192.168.1.1"; "10.0.0.7"]}
  ∧ rateLimiters sm' !! "10.0.0.7" = Some (drained Second 0).
Proof.
  intros sm t r sm'.
  destruct (Handler_registry_frame sm okHandler t NewRecorder r) as [_ H].
  destruct H as (_ & Hdom & Hother); [vm_compute; discriminate|].
  split.
  - exact Hdom.
  - rewrite Hother; [reflexivity|vm_compute; discriminate].
Defined.

(** X2: over any run of requests with the limiter on, the registry holds a
    bucket for every client seen and for no one else but those it started
    with; no bucket is ever dropped. *)
Theorem registry_one_bucket_per_client (sm : SecurityMiddleware)
    (batch : list (Time * Request)) :
  Middleware.RateLimit (config sm) ≠ 0 →
  dom (rateLimiters (checkAll sm batch).2)
  = dom (rateLimiters sm) ∪ list_to_set ((getClientIP ∘ snd) <$> batch).
Proof.
  revert sm. induction batch as [|[now r] rest IH]; intros sm Hd; simpl.
  - by rewrite (right_id_L ∅ (∪)).
  - destruct (checkRateLimit_registry sm now r NewRecorder Hd) as (lim & Heq & _).
    destruct (checkRateLimit sm now r NewRecorder) as [[ok w1] sm1].
    simpl in Heq. subst sm1.
    specialize (IH {| config := config sm;
                      rateLimiters := <[getClientIP r := lim]> (rateLimiters sm) |} Hd).
    destruct (checkAll _ rest) as [oks sm2]. simpl in *.
    rewrite IH, dom_insert_L.
    by rewrite (comm_L (∪) {[getClientIP r]}), <-(assoc_L (∪)).
Qed.

Lemma registry_one_bucket_per_client_witness :
  let sm := {| config := {| Middleware.CORSOrigins := [];
                            EnableSecurityHeaders := true;
                            Middleware.RateLimit := Second |};
               rateLimiters := ∅ |} in
  let t := {| wall := 1700000000000000000; mono := 5000 |} in
  dom (rateLimiters
         (checkAll sm [(t, request "GET" "" "192.168.1.1:12345");
                       (t, request "GET" "" "192.168.1.1:12346");
                       (t, request "GET" "" "192.168.1.2:12345")]).2)
  = {["192.168.1.1"; "192.168.1.2"]}.
Proof.
  intros sm t.
  rewrite (registry_one_bucket_per_client sm); [|vm_compute; discriminate].
  vm_compute. reflexivity.
Defined.



Section refill.
Local Open Scope Qc_scope.



End refill.



(** X5: the answer to a request the limiter refuses, on a writer nothing was
    written to: status 429, the one header [Content-Type: application/json]
    (no CORS header and no security header), and as body the error document
    with the code RATE_LIMIT_EXCEEDED, the time and the path of the request;
    the downstream handler has no part in it. *)
Theorem throttled_response (sm : SecurityMiddleware) (next : GoHTTP.Handler)
    (now : Time) (r : Request) :
  (checkRateLimit sm now r NewRecorder).1.1 = false →
  let w := (Handler sm next now NewRecorder r).1 in
  Code w = StatusTooManyRequests
  ∧ ResponseHeader w = {["Content-Type" := ["application/json"]]}
  ∧ (∃ details,
       body w = [Template "error"
                   [Str "RATE_LIMIT_EXCEEDED";
                    Str "Too many requests from this client";
                    Str details; Stamp (wall now); Str (Path r)]])
  ∧ ∀ next', (Handler sm next' now NewRecorder r).1 = w.
Proof.
  unfold Handler, checkRateLimit. case_decide; [done|].
  destruct (getRateLimiter sm (getClientIP r)) as [limiter sm1].
  destruct (Allow limiter (mono now)) as [[] limiter']; [done|].
  simpl. intros _. split_and!; [done|done|by eexists|done].
Qed.

Lemma throttled_response_witness :
  let sm := {| config := {| Middleware.CORSOrigins := [];
                            EnableSecurityHeaders := true;
                            Middleware.RateLimit := Second |};
               rateLimiters := {["192.168.1.1" := drained Second 5000]} |} in
  let t := {| wall := 1700000000000000000; mono := 5000 |} in
  let r := request "GET" "https://example.com" "192.168.1.1:12345" in
  Code (Handler sm okHandler t NewRecorder r).1 = StatusTooManyRequests
  ∧ ResponseHeader (Handler sm okHandler t NewRecorder r).1
    = {["Content-Type" := ["application/json"]]}.
Proof.
  intros sm t r.
  destruct (throttled_response sm okHandler t r) as (H1 & H2 & _); [reflexivity|].
  split; [exact H1|exact H2].
Defined.

Section preflight.
Implicit Types (sm : SecurityMiddleware) (w : ResponseWriter) (r : Request).

Lemma hdr_prepared_cors sm w r k v :
  (k, v) ∈ [("Access-Control-Allow-Methods", "GET, POST, PUT, DELETE, OPTIONS");
            ("Access-Control-Allow-Headers",
             "Content-Type, Authorization, X-Requested-With");
            ("Access-Control-Allow-Credentials", "true");
            ("Access-Control-Max-Age", "86400")] →
  Values (hdr (prepared sm w r)) k = Some [v].
Proof.
  intros Hk. unfold prepared, applySecurityHeaders, applyCORS.
  repeat (apply elem_of_cons in Hk as [[= -> ->]|Hk]);
    [..|by apply elem_of_nil in Hk];
    destruct (EnableSecurityHeaders (config sm)); by header_keys.
Qed.

End preflight.

(** X6: the answer to a preflight request the limiter lets through, on a
    writer nothing was written to: status 200, no body, and the four fixed
    CORS headers (methods, headers, credentials, max age), whatever the
    allow-list and the origin. *)
Theorem preflight_answer (sm : SecurityMiddleware) (next : GoHTTP.Handler)
    (now : Time) (r : Request) :
  Method r = MethodOptions →
  (checkRateLimit sm now r NewRecorder).1.1 = true →
  let w := (Handler sm next now NewRecorder r).1 in
  Code w = StatusOK
  ∧ body w = []
  ∧ Values (ResponseHeader w) "Access-Control-Allow-Methods"
    = Some ["GET, POST, PUT, DELETE, OPTIONS"]
  ∧ Values (ResponseHeader w) "Access-Control-Allow-Headers"
    = Some ["Content-Type, Authorization, X-Requested-With"]
  ∧ Values (ResponseHeader w) "Access-Control-Allow-Credentials" = Some ["true"]
  ∧ Values (ResponseHeader w) "Access-Control-Max-Age" = Some ["86400"].
Proof.
  intros Hm Hok.
  destruct (checkRateLimit_writer sm now r NewRecorder)
    as (ok & w0 & sm1 & Hc & Hw & _).
  rewrite Hc in Hok; simpl in Hok. subst ok. rewrite (Hw eq_refl) in Hc.
  rewrite (Handler_preflight _ sm1) by done. simpl.
  assert (status (prepared sm1 NewRecorder r) = None) as Hs
    by (by rewrite status_prepared).
  unfold Code, ResponseHeader, WriteHeader. rewrite Hs. simpl.
  split; [done|]. split.
  - clear. unfold prepared, applySecurityHeaders, applyCORS.
    rewrite allowOrigin_spec.
    destruct (EnableSecurityHeaders _); repeat case_decide; done.
  - split_and!; apply hdr_prepared_cors; set_solver.
Qed.

Lemma preflight_answer_witness :
  let sm := {| config := {| Middleware.CORSOrigins := ["https://allowed.com"];
                            EnableSecurityHeaders := true;
                            Middleware.RateLimit := Second |};
               rateLimiters := ∅ |} in
  let t := {| wall := 1700000000000000000; mono := 5000 |} in
  let r := request "OPTIONS" "https://blocked.com" "192.168.1.1:12345" in
  Code (Handler sm okHandler t NewRecorder r).1 = StatusOK
  ∧ Values (ResponseHeader (Handler sm okHandler t NewRecorder r).1)
      "Access-Control-Allow-Credentials" = Some ["true"].
Proof.
  intros sm t r.
  destruct (preflight_answer sm okHandler t r) as (H1 & _ & _ & _ & H2 & _);
    [reflexivity|reflexivity|].
  split; [exact H1|exact H2].
Defined.

Section byte_strings.
Implicit Types (a b s : string) (c x : ascii).

Lemma app_cons x a b : String x a +:+ b = String x (a +:+ b).
Proof. done. Qed.

Lemma app_nil_l b : "" +:+ b = b.
Proof. done. Qed.

Lemma app_assoc_s a b s : (a +:+ b) +:+ s = a +:+ (b +:+ s).
Proof. induction a as [|x a IH]; [done|]. by rewrite !app_cons, IH. Qed.

Lemma length_app a b :
  String.length (a +:+ b) = (String.length a + String.length b)%nat.
Proof. induction a as [|x a IH]; [done|]. rewrite app_cons. simpl. by rewrite IH. Qed.

Lemma byte_eqb_refl c : byte_eqb c c = true.
Proof. apply Ascii.eqb_refl. Qed.

Lemma ContainsByte_nil c : ContainsByte "" c = false.
Proof. by apply bool_decide_eq_false_2; intros [? ?]. Qed.

Lemma ContainsByte_cons x s c :
  ContainsByte (String x s) c = byte_eqb x c || ContainsByte s c.
Proof.
  unfold ContainsByte. cbn [IndexByte]. destruct (byte_eqb x c); cbn [orb].
  - apply bool_decide_eq_true_2. by eexists.
  - apply bool_decide_ext. by rewrite fmap_is_Some.
Qed.

Lemma ContainsByte_app a b c :
  ContainsByte (a +:+ b) c = ContainsByte a c || ContainsByte b c.
Proof.
  induction a as [|x a IH].
  - by rewrite app_nil_l, ContainsByte_nil.
  - by rewrite app_cons, !ContainsByte_cons, IH, orb_assoc.
Qed.

Lemma LastIndexByte_absent s c : ContainsByte s c = false → LastIndexByte s c = None.
Proof.
  induction s as [|x s IH]; [done|].
  rewrite ContainsByte_cons. intros [Hx Hs]%orb_false_iff.
  cbn [LastIndexByte]. by rewrite IH, Hx.
Qed.

(** The last occurrence of [c] in [a ++ c :: b] when [b] has none. *)
Lemma LastIndexByte_app a b c :
  ContainsByte b c = false →
  LastIndexByte (a +:+ String c b) c = Some (String.length a).
Proof.
  intros Hb. induction a as [|x a IH].
  - rewrite app_nil_l. cbn [LastIndexByte]. by rewrite LastIndexByte_absent, byte_eqb_refl.
  - rewrite app_cons. cbn [LastIndexByte]. by rewrite IH.
Qed.

(** The first occurrence of [c] in [a ++ c :: b] when [a] has none. *)
Lemma IndexByte_app a b c :
  ContainsByte a c = false →
  IndexByte (a +:+ String c b) c = Some (String.length a).
Proof.
  induction a as [|x a IH].
  - intros _. rewrite app_nil_l. cbn [IndexByte]. by rewrite byte_eqb_refl.
  - rewrite ContainsByte_cons. intros [Hx Ha]%orb_false_iff.
    rewrite app_cons. cbn [IndexByte]. by rewrite Hx, IH.
Qed.

Lemma substring_all s : String.substring 0 (String.length s) s = s.
Proof. induction s as [|x s IH]; [done|]. simpl. by rewrite IH. Qed.

Lemma substring_app_l a b :
  String.substring 0 (String.length a) (a +:+ b) = a.
Proof.
  induction a as [|x a IH].
  - rewrite app_nil_l. by destruct b.
  - rewrite app_cons. simpl. by rewrite IH.
Qed.

Lemma substring_app_r a b n :
  String.substring (String.length a) n (a +:+ b) = String.substring 0 n b.
Proof.
  induction a as [|x a IH]; [done|]. rewrite app_cons. simpl. apply IH.
Qed.

Lemma slice_app_l a b : slice (a +:+ b) 0 (String.length a) = a.
Proof. unfold slice. by rewrite Nat.sub_0_r, substring_app_l. Qed.

Lemma slice_from_0 s : slice_from s 0 = s.
Proof. unfold slice_from. by rewrite Nat.sub_0_r, substring_all. Qed.

Lemma slice_from_app a b : slice_from (a +:+ b) (String.length a) = b.
Proof.
  unfold slice_from. rewrite substring_app_r, length_app.
  replace (String.length a + String.length b - String.length a)%nat
    with (String.length b) by lia.
  apply substring_all.
Qed.

Lemma slice_app_mid a b s :
  slice (a +:+ (b +:+ s)) (String.length a) (String.length a + String.length b) = b.
Proof.
  unfold slice. rewrite substring_app_r.
  replace (String.length a + String.length b - String.length a)%nat
    with (String.length b) by lia.
  apply substring_app_l.
Qed.

End byte_strings.

Section client_identity.
Implicit Types (r : Request) (host port : string).

(** [net.SplitHostPort] on a host without brackets or colon, joined to a
    port without them. *)
Lemma SplitHostPort_plain host port :
  ContainsByte host ":" = false →
  ContainsByte host "[" = false → ContainsByte host "]" = false →
  ContainsByte port ":" = false →
  ContainsByte port "[" = false → ContainsByte port "]" = false →
  SplitHostPort (host +:+ ":" +:+ port) = Some (host, port).
Proof.
  intros Hh1 Hh2 Hh3 Hp1 Hp2 Hp3. unfold SplitHostPort.
  change (":" +:+ port) with (String ":" port).
  rewrite LastIndexByte_app by done.
  assert (match host +:+ String ":" port with
          | String "[" _ => true
          | _ => false
          end%char = false) as ->.
  { destruct host as [|x host]; [done|].
    rewrite ContainsByte_cons in Hh2. apply orb_false_iff in Hh2 as [Hx _].
    rewrite app_cons. unfold byte_eqb in Hx.
    apply Ascii.eqb_neq in Hx. by destruct x as [[] [] [] [] [] [] [] []]. }
  rewrite slice_app_l, Hh1, slice_from_0.
  rewrite !ContainsByte_app, !ContainsByte_cons, Hh2, Hh3, Hp2, Hp3.
  cbn [orb byte_eqb]. 
  change (host +:+ String ":" port) with (host +:+ (":" +:+ port)).
  rewrite <-app_assoc_s.
  replace (S (String.length host)) with (String.length (host +:+ ":"))
    by (rewrite length_app; simpl; lia).
  by rewrite slice_from_app.
Qed.

(** [net.SplitHostPort] on a host in brackets, joined to a port. *)
Lemma SplitHostPort_bracketed host port :
  ContainsByte host "[" = false → ContainsByte host "]" = false →
  ContainsByte port ":" = false →
  ContainsByte port "[" = false → ContainsByte port "]" = false →
  SplitHostPort ("[" +:+ host +:+ "]:" +:+ port) = Some (host, port).
Proof.
  intros Hh2 Hh3 Hp1 Hp2 Hp3. unfold SplitHostPort.
  set (hp := "[" +:+ host +:+ "]:" +:+ port).
  assert (hp = ("[" +:+ host +:+ "]") +:+ String ":" port) as H1.
  { unfold hp. by rewrite !app_assoc_s. }
  assert (hp = "[" +:+ (host +:+ String "]" (":" +:+ port))) as H2 by done.
  assert (String.length ("[" +:+ host +:+ "]") = S (S (String.length host))) as Hlen.
  { rewrite !length_app. simpl. lia. }
  rewrite H1 at 1. rewrite LastIndexByte_app, Hlen by done.
  assert (match hp with String "[" _ => true | _ => false end%char = true) as -> by done.
  assert (IndexByte hp "]" = Some (S (String.length host))) as ->.
  { rewrite H2. change ("[" +:+ ?s) with (String "[" s). cbn [IndexByte].
    change (byte_eqb "[" "]") with false. cbn iota.
    by rewrite IndexByte_app. }
  rewrite bool_decide_eq_false_2; last first.
  { unfold hp. rewrite !length_app. simpl. lia. }
  rewrite bool_decide_eq_true_2 by done.
  assert (slice hp 1 (S (String.length host)) = host) as ->.
  { unfold hp. apply (slice_app_mid "[" host). }
  assert (slice_from hp 1 = host +:+ "]:" +:+ port) as ->.
  { unfold hp. apply (slice_from_app "["). }
  assert (slice_from hp (S (S (String.length host))) = ":" +:+ port) as ->.
  { rewrite H1, <-Hlen. apply slice_from_app. }
  rewrite !ContainsByte_app, !ContainsByte_cons, Hh2, Hp2, Hp3, ContainsByte_nil.
  cbn [orb byte_eqb].
  change (byte_eqb ":" "]") with false.
  assert (slice_from hp (S (S (S (String.length host)))) = port) as ->; [|done].
  unfold hp. rewrite <-!app_assoc_s.
  replace (S (S (S (String.length host))))
    with (String.length ((("[" +:+ host) +:+ "]:"))) by (rewrite !length_app; simpl; lia).
  apply slice_from_app.
Qed.

End client_identity.
Section client_key.
Implicit Types (r : Request) (host port first rest : string).

Lemma Split_app_sep a b c :
  ContainsByte a c = false → Split (a +:+ String c b) c = a :: Split b c.
Proof.
  induction a as [|x a IH].
  - intros _. rewrite app_nil_l. cbn [Split]. by rewrite byte_eqb_refl.
  - rewrite ContainsByte_cons. intros [Hx Ha]%orb_false_iff.
    rewrite app_cons. cbn [Split]. by rewrite Hx, IH.
Qed.

(** X7: Without forwarding headers the client is identified by the host
    part of the remote address alone: [host:port] and [[host]:port] both
    give [host], whatever the port.  Requests of one host from different
    ports therefore share one bucket. *)
Theorem getClientIP_strips_port r host port :
  Get (ReqHeader r) "X-Forwarded-For" = "" →
  Get (ReqHeader r) "X-Real-IP" = "" →
  ContainsByte host "[" = false → ContainsByte host "]" = false →
  ContainsByte port ":" = false →
  ContainsByte port "[" = false → ContainsByte port "]" = false →
  (ContainsByte host ":" = false →
   RemoteAddr r = host +:+ ":" +:+ port → getClientIP r = host)
  ∧ (RemoteAddr r = "[" +:+ host +:+ "]:" +:+ port → getClientIP r = host).
Proof.
  intros Hxff Hxri Hh2 Hh3 Hp1 Hp2 Hp3. unfold getClientIP.
  rewrite Hxff, Hxri.
  rewrite !(decide_False (P := "" ≠ "")) by (intros H; by apply H).
  split.
  - intros Hh1 ->. rewrite SplitHostPort_plain by done.
    change (":" +:+ port) with (String ":" port).
    by rewrite ContainsByte_app, ContainsByte_cons, byte_eqb_refl, orb_true_r.
  - intros ->. rewrite SplitHostPort_bracketed by done.
    rewrite !ContainsByte_app. change (ContainsByte "]:" ":") with true.
    by rewrite orb_true_r.
Qed.

Lemma getClientIP_strips_port_witness :
  getClientIP (request "GET" "" "10.0.0.7:51234") = "10.0.0.7"
  ∧ getClientIP (request "GET" "" "[fe80::1]:443") = "fe80::1".
Proof.
  split.
  - by refine (proj1 (getClientIP_strips_port (request "GET" "" "10.0.0.7:51234")
                       "10.0.0.7" "51234" _ _ _ _ _ _ _) _ _); vm_compute.
  - by refine (proj2 (getClientIP_strips_port (request "GET" "" "[fe80::1]:443")
                       "fe80::1" "443" _ _ _ _ _ _ _) _); vm_compute.
Defined.

(** X8: A forwarding header decides alone: the client is the first
    comma-separated element of [X-Forwarded-For], white space stripped,
    whatever [X-Real-IP] and the remote address are. *)
Theorem getClientIP_forwarded_first r first rest :
  ContainsByte first "," = false →
  Get (ReqHeader r) "X-Forwarded-For" = first +:+ "," +:+ rest →
  getClientIP r = TrimSpace first.
Proof.
  intros Hf Hxff. unfold getClientIP. rewrite Hxff.
  rewrite decide_True.
  - change ("," +:+ rest) with (String "," rest). by rewrite Split_app_sep.
  - by destruct first.
Qed.

Lemma getClientIP_forwarded_first_witness :
  getClientIP {| Method := "GET"; Path := "/test";
                 ReqHeader := Set_ (Set_ ∅ "X-Real-IP" "10.9.9.9")
                                "X-Forwarded-For" " 203.0.113.5 , 10.0.0.1";
                 RemoteAddr := "192.168.1.1:12345" |} = "203.0.113.5".
Proof.
  by refine (getClientIP_forwarded_first _ " 203.0.113.5 " " 10.0.0.1" _ _); vm_compute.
Defined.

End client_key.
Section environment.
Implicit Types (env : Environ) (s : string) (c : ascii).

Lemma ContainsByte_rev_app s1 s2 c :
  ContainsByte (String.rev_app s1 s2) c = ContainsByte s1 c || ContainsByte s2 c.
Proof.
  revert s2. induction s1 as [|x s1 IH]; intros s2; cbn [String.rev_app].
  - by rewrite ContainsByte_nil.
  - rewrite IH, !ContainsByte_cons.
    destruct (byte_eqb x c), (ContainsByte s1 c), (ContainsByte s2 c); done.
Qed.

Lemma ContainsByte_rev s c : ContainsByte (String.rev s) c = ContainsByte s c.
Proof.
  unfold String.rev. by rewrite ContainsByte_rev_app, ContainsByte_nil, orb_false_r.
Qed.

(** Stripping only removes bytes. *)
Lemma ContainsByte_trim_front back s c :
  ContainsByte s c = false → ContainsByte (trim_front back s) c = false.
Proof.
  remember (String.length s) as n eqn:Hn. revert s Hn.
  induction (lt_wf n) as [n _ IH]. intros s -> Hs.
  destruct s as [|a1 [|a2 [|a3 s3]]]; cbn [trim_front]; repeat case_match;
    try done;
    repeat match goal with
    | H : ContainsByte (String _ _) _ = false |- _ =>
        rewrite ContainsByte_cons in H; apply orb_false_iff in H as [? ?]
    end;
    try (eapply IH; [|reflexivity|]; [simpl; lia|]);
    rewrite ?ContainsByte_cons; repeat (apply orb_false_iff; split); done.
Qed.

Lemma ContainsByte_TrimSpace s c :
  ContainsByte s c = false → ContainsByte (TrimSpace s) c = false.
Proof.
  intros Hs. unfold TrimSpace.
  rewrite ContainsByte_rev. apply ContainsByte_trim_front.
  rewrite ContainsByte_rev. by apply ContainsByte_trim_front.
Qed.

(** No piece of a split holds the separator. *)
Lemma Split_pieces s c : Forall (λ p, ContainsByte p c = false) (Split s c).
Proof.
  induction s as [|x s IH]; cbn [Split].
  - apply Forall_singleton, ContainsByte_nil.
  - destruct (byte_eqb x c) eqn:Hx.
    + apply Forall_cons. split; [apply ContainsByte_nil|done].
    + destruct (Split s c) as [|hd tl].
      * apply Forall_singleton. by rewrite ContainsByte_cons, Hx, ContainsByte_nil.
      * apply Forall_cons in IH as [Hhd Htl]. apply Forall_cons. split; [|done].
        by rewrite ContainsByte_cons, Hx, Hhd.
Qed.

(** X9: The allow-list read from the environment holds no empty entry and
    no entry with a comma in it. *)
Theorem parseCORSOrigins_entries env :
  Forall (λ o, o ≠ "" ∧ ContainsByte o "," = false) (parseCORSOrigins env).
Proof.
  unfold parseCORSOrigins. case_decide; [constructor|].
  apply Forall_forall. intros o [Ho Hin]%list_elem_of_filter.
  split; [done|].
  apply list_elem_of_fmap in Hin as (p & -> & Hp).
  apply ContainsByte_TrimSpace.
  pose proof (Split_pieces (Getenv env "SLACK_MCP_CORS_ORIGINS") ",") as Hall.
  rewrite Forall_forall in Hall. by apply Hall.
Qed.

(** X10: The allow-list comes out empty exactly when every comma-separated
    piece of the variable is blank (the unset variable included); the
    middleware built from such an environment answers every origin with the
    wildcard. *)
Theorem parseCORSOrigins_blank_allows_all env sm w r :
  (parseCORSOrigins env = []
   ↔ Forall (λ p, TrimSpace p = "") (Split (Getenv env "SLACK_MCP_CORS_ORIGINS") ","))
  ∧ (Forall (λ p, TrimSpace p = "") (Split (Getenv env "SLACK_MCP_CORS_ORIGINS") ",") →
     NewSecurityMiddleware env = Some sm →
     Values (hdr (applyCORS sm w r)) "Access-Control-Allow-Origin" = Some ["*"]).
Proof.
  assert (parseCORSOrigins env = []
   ↔ Forall (λ p, TrimSpace p = "") (Split (Getenv env "SLACK_MCP_CORS_ORIGINS") ","))
    as Hiff.
  { unfold parseCORSOrigins. case_decide as He.
    - rewrite He. split; [|done]. intros _. by repeat constructor.
    - trans (Forall (λ t, t = "")
               (TrimSpace <$> Split (Getenv env "SLACK_MCP_CORS_ORIGINS") ","));
        [|by rewrite Forall_fmap].
      generalize (TrimSpace <$> Split (Getenv env "SLACK_MCP_CORS_ORIGINS") ",").
      intros l. induction l as [|a l IH]; [done|].
      rewrite filter_cons, Forall_cons. case_decide as Ha.
      + split; [done|]. by intros [? _].
      + rewrite IH. split; [by intros ?|by intros [_ ?]]. }
  split; [done|].
  intros Hall Hsm. apply Hiff in Hall.
  unfold NewSecurityMiddleware in Hsm.
  destruct (parseRateLimit env) as [d|]; [|done]. simpl in Hsm.
  injection Hsm as <-.
  rewrite applyCORS_allow_origin. cbn [config Middleware.CORSOrigins].
  by rewrite decide_True.
Qed.

Lemma parseCORSOrigins_blank_allows_all_witness :
  let env : Environ := {["SLACK_MCP_CORS_ORIGINS" := " , ,"]} in
  ∃ sm, NewSecurityMiddleware env = Some sm
    ∧ Values (hdr (applyCORS sm NewRecorder (request "GET" "https://a.example" "10.0.0.1:80")))
        "Access-Control-Allow-Origin" = Some ["*"].
Proof.
  intros env. eexists. split; [reflexivity|].
  refine (proj2 (parseCORSOrigins_blank_allows_all env _ _ _) _ _).
  - change (Forall (λ p, TrimSpace p = "") [" "; " "; ""]).
    apply Forall_cons; split; [reflexivity|].
    apply Forall_cons; split; [reflexivity|].
    by apply Forall_singleton.
  - reflexivity.
Defined.

(** X11: The security headers are switched off by exactly the six
    spellings of false that [strconv.ParseBool] knows; an unset variable and
    every other value leave them on. *)
Theorem parseSecurityHeaders_off env :
  parseSecurityHeaders env = false
  ↔ Getenv env "SLACK_MCP_SECURITY_HEADERS" ∈ ["0"; "f"; "F"; "FALSE"; "false"; "False"].
Proof.
  unfold parseSecurityHeaders, ParseBool.
  set (value := Getenv env "SLACK_MCP_SECURITY_HEADERS").
  case_decide as He.
  - rewrite He. split; [done|]. intros H.
    rewrite !elem_of_cons in H. destruct_or!; try done. by apply elem_of_nil in H.
  - destruct (bool_decide (value ∈ ["1"; "t"; "T"; "TRUE"; "true"; "True"])) eqn:Ht.
    + split; [done|]. apply bool_decide_eq_true in Ht. intros Hf.
      rewrite !elem_of_cons in Ht. rewrite !elem_of_cons in Hf.
      destruct_or!; try congruence;
        repeat match goal with H : _ ∈ [] |- _ => by apply elem_of_nil in H end.
    + destruct (bool_decide (value ∈ ["0"; "f"; "F"; "FALSE"; "false"; "False"])) eqn:Hf.
      * by apply bool_decide_eq_true in Hf.
      * by apply bool_decide_eq_false in Hf.
Qed.

(** The interval [parseRateLimit] computes from a positive rate. *)
Lemma parseRateLimit_positive env n :
  Atoi (Getenv env "SLACK_MCP_RATE_LIMIT") = Some n → 0 < n →
  parseRateLimit env = Some (Minute `div` n).
Proof.
  intros Hn Hpos. unfold parseRateLimit. case_decide as He.
  { rewrite He in Hn. done. }
  rewrite Hn. rewrite decide_False by lia.
  unfold div64. rewrite bool_decide_eq_false_2 by lia.
  assert (0 < Minute) as HM by done.
  rewrite Z.quot_div_nonneg by lia.
  assert (0 ≤ Minute `div` n ≤ Minute) as Hq.
  { split; [apply Z.div_pos; lia|]. apply Z.div_le_upper_bound; [lia|]. nia. }
  f_equal. unfold wrap64. unfold Minute, Second in *. rewrite Z.mod_small; lia.
Qed.

(** X12: A positive rate [n] per minute gives the interval [Minute / n]
    rounded down, so the limiter lets through at least the configured rate;
    beyond 60000000000 per minute the interval is zero. *)
Theorem parseRateLimit_interval env n :
  Atoi (Getenv env "SLACK_MCP_RATE_LIMIT") = Some n → 0 < n →
  ∃ d, parseRateLimit env = Some d
    ∧ n * d ≤ Minute < n * (d + 1)
    ∧ (d = 0 ↔ Minute < n).
Proof.
  intros Hn Hpos. exists (Minute `div` n).
  split; [by apply parseRateLimit_positive|].
  assert (0 < Minute) as HM by done.
  pose proof (Z.mul_div_le Minute n Hpos) as Hlo.
  pose proof (Z.mul_succ_div_gt Minute n Hpos) as Hhi.
  split; [lia|]. split.
  - intros Hz. rewrite Hz in Hhi. lia.
  - intros Hlt. apply Z.div_small. lia.
Qed.

Lemma parseRateLimit_interval_witness :
  ∃ d, parseRateLimit {["SLACK_MCP_RATE_LIMIT" := "7"]} = Some d
    ∧ 7 * d ≤ Minute < 7 * (d + 1)
    ∧ (d = 0 ↔ Minute < 7).
Proof. by apply (parseRateLimit_interval {["SLACK_MCP_RATE_LIMIT" := "7"]} 7). Defined.

(** X13: A configured rate above 60000000000 per minute switches the
    limiter off: the middleware built from the environment lets every
    request of every batch pass and keeps no bucket. *)
Theorem rate_limit_beyond_resolution env n batch :
  Atoi (Getenv env "SLACK_MCP_RATE_LIMIT") = Some n → Minute < n →
  ∃ sm, NewSecurityMiddleware env = Some sm
    ∧ Middleware.RateLimit (config sm) = 0
    ∧ checkAll sm batch = (replicate (length batch) true, sm)
    ∧ rateLimiters sm = ∅.
Proof.
  intros Hn Hlt.
  assert (0 < n) as Hpos by (unfold Minute, Second in Hlt; lia).
  pose proof (parseRateLimit_positive env n Hn Hpos) as Hd.
  rewrite Z.div_small in Hd by (unfold Minute, Second in *; lia).
  unfold NewSecurityMiddleware. rewrite Hd. simpl.
  eexists; split; [done|]. split; [done|]. split; [|done].
  by apply checkAll_disabled.
Qed.

Lemma rate_limit_beyond_resolution_witness :
  let env : Environ := {["SLACK_MCP_RATE_LIMIT" := "60000000001"]} in
  let t := {| wall := 1700000000000000000; mono := 5000 |} in
  let r := request "GET" "" "192.168.1.1:12345" in
  ∃ sm, NewSecurityMiddleware env = Some sm
    ∧ Middleware.RateLimit (config sm) = 0
    ∧ checkAll sm [(t, r); (t, r); (t, r)] = (replicate 3 true, sm)
    ∧ rateLimiters sm = ∅.
Proof.
  intros env t r.
  by apply (rate_limit_beyond_resolution env 60000000001 [(t, r); (t, r); (t, r)]).
Defined.

End environment.
Section probes.
Implicit Types (h : HealthChecker) (sys : Sys) (w : ResponseWriter) (r : Request).

(** X14: The document of [performHealthChecks] has a detail under exactly
    the names of the checks in error, so none exactly when it is healthy;
    its checks are [cache] alone, or [cache] and [slack_api] for readiness,
    whatever their outcome. *)
Theorem details_name_failed_checks h sys includeReadiness :
  ∃ response,
    result (performHealthChecks h sys includeReadiness) = Some response
    ∧ (∀ k, is_Some (Details response !! k)
            ↔ Checks response !! k = Some CheckStatusError)
    ∧ (Details response = ∅ ↔ Status response = HealthStatusHealthy)
    ∧ dom (Checks response) =
        if includeReadiness then {["cache"; "slack_api"]} else {["cache"]}.
Proof.
  destruct (checkCacheSystem_result h) as (cache & Hc & Hcs & _).
  destruct (checkSlackAPI_result h sys) as (slack & Hs & Hss & _).
  destruct (performHealthChecks_result h sys includeReadiness)
    as (cache' & slack' & Hc' & Hs' & ->).
  rewrite Hc in Hc'. rewrite Hs in Hs'. simplify_eq.
  eexists; split; [done|].
  split; [|split].
  - intros k.
    destruct (decide (k = "cache")) as [->|?];
      [|destruct (decide (k = "slack_api")) as [->|?]];
      destruct includeReadiness, Hcs as [->| ->], Hss as [->| ->]; simpl;
      rewrite ?lookup_insert_ne, ?lookup_singleton_ne, ?lookup_empty by done;
      (split; intros H; try (by destruct H); try (by vm_compute in H); by eexists).
  - destruct includeReadiness, Hcs as [->| ->], Hss as [->| ->]; simpl;
      (split; intros H; try done; by apply (f_equal size) in H).
  - destruct includeReadiness; simpl.
    + rewrite dom_insert_L, dom_singleton_L. by rewrite (comm_L (∪)).
    + by rewrite dom_singleton_L.
Qed.

(** X15: The calls into the provider.  The health endpoint asks the
    provider whether it is ready and nothing else; the readiness endpoint
    asks that too, then fetches the Slack client and, unless there is none or
    the tokens are the demo ones, fetches it again and probes the Slack API
    once, also when the cache check has already failed.  Without a provider no
    call is made. *)
Theorem provider_calls h sys w r :
  let demo :=
    bool_decide (Getenv (environ sys) "SLACK_MCP_XOXP_TOKEN" = "demo")
    || (bool_decide (Getenv (environ sys) "SLACK_MCP_XOXC_TOKEN" = "demo")
        && bool_decide (Getenv (environ sys) "SLACK_MCP_XOXD_TOKEN" = "demo")) in
  calls (HealthHandler h sys w r) =
    match provider h with
    | None => []
    | Some _ => [CallIsReady]
    end
  ∧ calls (ReadinessHandler h sys w r) =
      match provider h with
      | None => []
      | Some p =>
          match Slack p with
          | None => [CallIsReady; CallSlack]
          | Some _ =>
              if demo then [CallIsReady; CallSlack]
              else [CallIsReady; CallSlack; CallSlack; CallAuthTest]
          end
      end
  ∧ calls (LivenessHandler h sys w r) = [].
Proof.
  intros demo. subst demo.
  unfold HealthHandler, ReadinessHandler, performHealthChecks,
    checkCacheSystem, checkSlackAPI.
  destruct (provider h) as [[[ready err] [[aerr]|]]|]; simpl.
  - destruct (bool_decide (Getenv _ "SLACK_MCP_XOXP_TOKEN" = "demo") || _).
    + destruct err, ready; repeat split; reflexivity.
    + destruct err, ready, aerr; repeat split; reflexivity.
  - destruct err, ready; repeat split; reflexivity.
  - repeat split; reflexivity.
Qed.

(** X16: The health endpoint answers 200 exactly when there is a provider
    whose cache is ready and reports no error, and 503 otherwise; neither the
    Slack client nor the environment is looked at. *)
Theorem health_endpoint_status h sys r :
  ∃ w, result (HealthHandler h sys NewRecorder r) = Some w
    ∧ (Code w = StatusOK ∨ Code w = StatusServiceUnavailable)
    ∧ (Code w = StatusOK
       ↔ ∃ p, provider h = Some p ∧ IsReady p = (true, None)).
Proof.
  unfold HealthHandler.
  destruct (performHealthChecks_result h sys false) as (cache & slack & Hc & _ & Hr).
  destruct (performHealthChecks h sys false) as [res cs]. simpl in Hr. subst res.
  simpl. eexists; split; [done|].
  rewrite writeHealthResponse_code by done. simpl.
  unfold checkCacheSystem in Hc.
  destruct (provider h) as [[[ready err] client]|]; simpl in Hc.
  - destruct err, ready; simpl in Hc; injection Hc as <-; simpl;
      (split; [by auto|]); (split; [try done|]);
      try (by intros (p & [= <-] & [=])); by eexists.
  - injection Hc as <-. simpl. split; [by auto|].
    split; [done|]. by intros (p & [=] & _).
Qed.

(** X17: The readiness endpoint answers 200 exactly when there is a
    provider whose cache is ready without error, that has a Slack client,
    and either the tokens are the demo ones or the probe of the Slack API
    returns no error; it answers 503 otherwise. *)
Theorem readiness_endpoint_status h sys r :
  let demo :=
    bool_decide (Getenv (environ sys) "SLACK_MCP_XOXP_TOKEN" = "demo")
    || (bool_decide (Getenv (environ sys) "SLACK_MCP_XOXC_TOKEN" = "demo")
        && bool_decide (Getenv (environ sys) "SLACK_MCP_XOXD_TOKEN" = "demo")) in
  ∃ w, result (ReadinessHandler h sys NewRecorder r) = Some w
    ∧ (Code w = StatusOK ∨ Code w = StatusServiceUnavailable)
    ∧ (Code w = StatusOK
       ↔ ∃ p c, provider h = Some p ∧ IsReady p = (true, None)
                ∧ Slack p = Some c
                ∧ (demo = true ∨ AuthTestContext c = None)).
Proof.
  intros demo. unfold ReadinessHandler.
  destruct (performHealthChecks_result h sys true) as (cache & slack & Hc & Hs & Hr).
  destruct (performHealthChecks h sys true) as [res cs]. simpl in Hr. subst res.
  simpl. eexists; split; [done|].
  rewrite writeHealthResponse_code by done. simpl.
  unfold checkCacheSystem in Hc. unfold checkSlackAPI in Hs. fold demo in Hs.
  destruct (provider h) as [[[ready err] [[aerr]|]]|]; simpl in Hc, Hs.
  - destruct demo eqn:Hd; simpl in Hs.
    + destruct err, ready; simpl in Hc; injection Hc as <-; injection Hs as <-; simpl;
        (split; [by auto|]); (split; [try done|]);
        try (by intros (p & c & [= <-] & [=] & _)); eexists _, _; by eauto.
    + destruct err, ready, aerr; simpl in Hc, Hs; injection Hc as <-; injection Hs as <-;
        simpl; (split; [by auto|]); (split; [try done|]);
        try (intros (p & c & [= <-] & Hrdy & [= <-] & [?|?]); by simplify_eq/=);
        eexists _, _; by eauto.
  - destruct err, ready; simpl in Hc; injection Hc as <-; injection Hs as <-; simpl;
      (split; [by auto|]); (split; [done|]); by intros (p & c & [= <-] & _ & [=] & _).
  - injection Hc as <-. injection Hs as <-. simpl. split; [by auto|].
    split; [done|]. by intros (p & c & [=] & _).
Qed.

Lemma performHealthChecks_details h sys includeReadiness :
  ∃ response,
    result (performHealthChecks h sys includeReadiness) = Some response
    ∧ Timestamp response = now sys
    ∧ (Status response = HealthStatusHealthy ∨ Status response = HealthStatusUnhealthy)
    ∧ (Details response = ∅ ↔ Status response = HealthStatusHealthy).
Proof.
  destruct (checkCacheSystem_result h) as (cache & Hc & Hcs & _).
  destruct (checkSlackAPI_result h sys) as (slack & Hs & Hss & _).
  destruct (performHealthChecks_result h sys includeReadiness)
    as (cache' & slack' & Hc' & Hs' & ->).
  rewrite Hc in Hc'. rewrite Hs in Hs'. simplify_eq.
  eexists; split; [done|]. split; [done|].
  destruct includeReadiness, Hcs as [->| ->], Hss as [->| ->]; simpl;
    (split; [by auto|]);
    (split; intros H; try done; by apply (f_equal size) in H).
Qed.

(** X18: What the health and readiness endpoints write, for a clock within
    the years the time stamp can be rendered in: one document, which has the
    field [details] exactly when it is unhealthy. *)
Theorem details_rendered_iff_unhealthy h sys includeReadiness w :
  year0 ≤ wall (now sys) < year10000 →
  ∃ response j,
    result (performHealthChecks h sys includeReadiness) = Some response
    ∧ body (writeHealthResponse w response) = body w ++ [Doc j]
    ∧ has_field j "details" = bool_decide (Status response = HealthStatusUnhealthy).
Proof.
  intros Ht.
  destruct (performHealthChecks_details h sys includeReadiness)
    as (response & Hr & Hts & Hst & Hd).
  exists response.
  assert (∃ j, marshalHealthResponse response = Some j
               ∧ has_field j "details"
                 = bool_decide (Status response = HealthStatusUnhealthy))
    as (j & Hj & Hf).
  { unfold marshalHealthResponse, marshalTime.
    rewrite Hts. rewrite (decide_True (P := _ ∧ _)) by done. simpl.
    eexists; split; [done|]. unfold has_field.
    destruct (decide (Details response = ∅)) as [He|He].
    - apply Hd in He. rewrite He. by destruct (Uptime response).
    - destruct Hst as [Hh|Hu]; [by apply Hd in Hh|]. rewrite Hu.
      by destruct (Uptime response). }
  exists j. split; [done|]. split; [|done].
  by apply writeHealthResponse_body.
Qed.

Lemma details_rendered_iff_unhealthy_witness :
  let h := {| provider := Some {| IsReady := (false, None); Slack := None |};
              startTime := {| wall := 1699999999000000000; mono := 4000 |} |} in
  let sys := {| environ := ∅; version := "v1.0.0";
                now := {| wall := 1700000000000000000; mono := 9000 |} |} in
  ∃ response j,
    result (performHealthChecks h sys false) = Some response
    ∧ body (writeHealthResponse NewRecorder response) = [Doc j]
    ∧ has_field j "details" = bool_decide (Status response = HealthStatusUnhealthy).
Proof.
  intros h sys.
  apply (details_rendered_iff_unhealthy h sys false NewRecorder).
  by vm_compute.
Defined.

End probes.
Section configuration.
Implicit Types (env : Environ) (cfg : Main.ServerConfig).

(** The interval [loadServerConfig] computes from a parsed rate. *)
Lemma loadServerConfig_rate env cfg :
  Main.loadServerConfig env = Main.Ok cfg →
  let v := Getenv env "SLACK_MCP_RATE_LIMIT" in
  (v = "" ∧ Main.RateLimit cfg = Minute)
  ∨ (v ≠ "" ∧ Atoi v = Some 0 ∧ Main.RateLimit cfg = 0)
  ∨ (v ≠ "" ∧ ∃ n, Atoi v = Some n ∧ 0 < n
               ∧ div64 Minute n = Some (Main.RateLimit cfg)).
Proof.
  intros H v. unfold Main.loadServerConfig in H. fold v in H.
  destruct (decide (v = "")) as [He|He].
  - left. split; [done|]. by injection H as <-.
  - right. destruct (Atoi v) as [n|]; [|done].
    destruct (decide (n < 0)); [done|].
    destruct (decide (n = 0)) as [->|?].
    + left. split; [done|]. split; [done|]. by injection H as <-.
    + right. split; [done|]. exists n. split; [done|]. split; [lia|].
      destruct (div64 Minute n); [|done]. by injection H as <-.
Qed.

(** The interval of a loaded configuration lies between zero and a minute. *)
Lemma loadServerConfig_rate_range env cfg :
  Main.loadServerConfig env = Main.Ok cfg → 0 ≤ Main.RateLimit cfg ≤ Minute.
Proof.
  intros Hcfg.
  destruct (loadServerConfig_rate env cfg Hcfg)
    as [[_ ->]|[(_ & _ & ->)|(_ & n & Hn & Hpos & Hd)]]; [done|done|].
  unfold div64 in Hd. rewrite bool_decide_eq_false_2 in Hd by lia.
  injection Hd as <-.
  assert (0 ≤ Minute `quot` n ≤ Minute) as Hq.
  { rewrite Z.quot_div_nonneg by (unfold Minute, Second; lia).
    split; [apply Z.div_pos; unfold Minute, Second; lia|].
    apply Z.div_le_upper_bound; [lia|]. unfold Minute, Second. nia. }
  unfold wrap64. unfold Minute, Second in *.
  rewrite Z.mod_small; lia.
Qed.

(** X19: [loadServerConfig] never panics; it fails exactly when the rate
    limit is set to something that is no integer or is negative; and the
    interval of a configuration it returns lies between zero and a minute. *)
Theorem loadServerConfig_outcome env :
  let v := Getenv env "SLACK_MCP_RATE_LIMIT" in
  Main.loadServerConfig env ≠ Main.Panic
  ∧ ((∃ msg, Main.loadServerConfig env = Main.Err msg)
     ↔ v ≠ "" ∧ ∀ n, Atoi v = Some n → n < 0)
  ∧ (∀ cfg, Main.loadServerConfig env = Main.Ok cfg →
            0 ≤ Main.RateLimit cfg ≤ Minute).
Proof.
  intros v. split; [|split].
  - unfold Main.loadServerConfig. fold v.
    destruct (decide (v = "")) as [?|?]; [done|].
    destruct (Atoi v) as [k|]; [|done].
    destruct (decide (k < 0)) as [?|?]; [done|].
    destruct (decide (k = 0)) as [?|?]; [done|].
    unfold div64. by rewrite bool_decide_eq_false_2.
  - unfold Main.loadServerConfig. fold v.
    destruct (decide (v = "")) as [He|He].
    { split; [by intros [? ?]|]. by intros [? _]. }
    destruct (Atoi v) as [n|].
    + destruct (decide (n < 0)) as [?|?].
      * split; [|by eexists]. intros _. split; [done|]. by intros ? [= <-].
      * split.
        -- intros [msg Hmsg].
           destruct (decide (n = 0)) as [?|?]; [done|]. by destruct (div64 _ _).
        -- intros [_ Hall]. specialize (Hall n eq_refl). lia.
    + split; [|by eexists]. intros _. split; [done|]. by intros ? [=].
  - apply loadServerConfig_rate_range.
Qed.

Lemma loadServerConfig_outcome_witness :
  ∃ msg, Main.loadServerConfig {["SLACK_MCP_RATE_LIMIT" := "-5"]} = Main.Err msg.
Proof.
  apply (proj2 (proj1 (proj2 (loadServerConfig_outcome {["SLACK_MCP_RATE_LIMIT" := "-5"]})))).
  split; [done|]. intros n Hn. vm_compute in Hn. by injection Hn as <-.
Defined.

(** X20: the configuration [main] loads and the middleware
    [NewSecurityMiddleware] builds read the rate limit each on its own.
    Their intervals are the same unless the value is zero: [main] then
    records a limiter that is off while the middleware limits to one request
    a minute.  Where [main] rejects the value, the middleware takes the
    default. *)
Theorem rate_limit_read_twice env sm :
  NewSecurityMiddleware env = Some sm →
  let v := Getenv env "SLACK_MCP_RATE_LIMIT" in
  (∀ cfg, Main.loadServerConfig env = Main.Ok cfg →
     (Main.RateLimit cfg = Middleware.RateLimit (config sm) ↔ Atoi v ≠ Some 0)
     ∧ (Atoi v = Some 0 →
        Main.RateLimit cfg = 0 ∧ Middleware.RateLimit (config sm) = Minute))
  ∧ (∀ msg, Main.loadServerConfig env = Main.Err msg →
       Middleware.RateLimit (config sm) = Minute).
Proof.
  intros Hsm v. unfold NewSecurityMiddleware in Hsm.
  destruct (parseRateLimit env) as [d|] eqn:Hd; [|done]. simpl in Hsm.
  injection Hsm as <-. cbn [config Middleware.RateLimit].
  unfold parseRateLimit in Hd. fold v in Hd. split.
  - intros cfg Hcfg.
    destruct (loadServerConfig_rate env cfg Hcfg)
      as [[He ->]|[(Hne & H0 & ->)|(Hne & n & Hn & Hpos & Hq)]]; fold v in He || fold v in Hne.
    + rewrite He in *. rewrite decide_True in Hd by done. injection Hd as <-.
      split; [|done]. split; [done|]. intros _. by vm_compute.
    + fold v in H0. rewrite decide_False, H0 in Hd by done. simpl in Hd.
      injection Hd as <-. split; [|done]. by split.
    + fold v in Hn. rewrite decide_False, Hn, decide_False in Hd by (done || lia).
      rewrite Hq in Hd. injection Hd as <-. rewrite Hn.
      split; [|intros [= ->]; lia].
      split; [intros _ [= ->]; lia|done].
  - intros msg Hmsg. unfold Main.loadServerConfig in Hmsg. fold v in Hmsg.
    destruct (decide (v = "")) as [?|?]; [done|].
    destruct (Atoi v) as [k|]; [|by injection Hd as <-].
    destruct (decide (k < 0)) as [?|?].
    + rewrite decide_True in Hd by lia. by injection Hd as <-.
    + destruct (decide (k = 0)) as [?|?]; [done|]. by destruct (div64 _ _).
Qed.

Lemma rate_limit_read_twice_witness :
  let env : Environ := {["SLACK_MCP_RATE_LIMIT" := "0"]} in
  ∃ sm cfg, NewSecurityMiddleware env = Some sm
    ∧ Main.loadServerConfig env = Main.Ok cfg
    ∧ Main.RateLimit cfg = 0 ∧ Middleware.RateLimit (config sm) = Minute.
Proof.
  intros env. eexists _, _. split; [reflexivity|]. split; [reflexivity|].
  refine (proj2 (proj1 (rate_limit_read_twice env _ _) _ _) _); reflexivity.
Defined.

(** The fields of a loaded configuration that do not depend on the rate. *)
Lemma loadServerConfig_fields env cfg :
  Main.loadServerConfig env = Main.Ok cfg →
  Main.Port cfg =
    (if decide (Getenv env "PORT" ≠ "") then Getenv env "PORT"
     else if decide (Getenv env "SLACK_MCP_PORT" = "") then "13080"
          else Getenv env "SLACK_MCP_PORT")
  ∧ Main.CORSOrigins cfg =
      (if decide (Getenv env "SLACK_MCP_CORS_ORIGINS" = "") then ["*"]
       else TrimSpace <$> Split (Getenv env "SLACK_MCP_CORS_ORIGINS") ",")
  ∧ Main.HealthEnabled cfg =
      bool_decide (Getenv env "SLACK_MCP_HEALTH_ENABLED" = "")
      || bool_decide (Getenv env "SLACK_MCP_HEALTH_ENABLED" = "true")
      || bool_decide (Getenv env "SLACK_MCP_HEALTH_ENABLED" = "1")
  ∧ Main.SecurityHeaders cfg =
      bool_decide (Getenv env "SLACK_MCP_SECURITY_HEADERS" = "")
      || bool_decide (Getenv env "SLACK_MCP_SECURITY_HEADERS" = "true")
      || bool_decide (Getenv env "SLACK_MCP_SECURITY_HEADERS" = "1").
Proof.
  intros H. unfold Main.loadServerConfig in H.
  destruct (if decide (Getenv env "SLACK_MCP_RATE_LIMIT" = "") then _ else _)
    as [d| |]; [|done..].
  injection H as <-. cbn [Main.Port Main.CORSOrigins Main.HealthEnabled Main.SecurityHeaders].
  split; [|done].
  destruct (decide (Getenv env "PORT" ≠ "")) as [?|?].
  - by rewrite decide_False.
  - by destruct (decide (Getenv env "SLACK_MCP_PORT" = "")).
Qed.

(** X21: Validation of a loaded configuration.  The port is [PORT], else
    [SLACK_MCP_PORT], else 13080; the configuration is accepted exactly when
    that port is an integer and, if origins are configured, none of their
    comma-separated pieces is blank.  The check of the rate limit never
    fires. *)
Theorem validateServerConfig_loaded env cfg :
  Main.loadServerConfig env = Main.Ok cfg →
  let v := Getenv env "SLACK_MCP_CORS_ORIGINS" in
  Main.Port cfg =
    (if decide (Getenv env "PORT" ≠ "") then Getenv env "PORT"
     else if decide (Getenv env "SLACK_MCP_PORT" = "") then "13080"
          else Getenv env "SLACK_MCP_PORT")
  ∧ (Main.validateServerConfig cfg = None
     ↔ is_Some (Atoi (Main.Port cfg))
       ∧ (v = "" ∨ Forall (λ p, TrimSpace p ≠ "") (Split v ",")))
  ∧ Main.validateServerConfig cfg ≠ Some "invalid rate limit: must be non-negative".
Proof.
  intros Hcfg v.
  destruct (loadServerConfig_fields env cfg Hcfg) as (Hport & Hcors & _).
  pose proof (loadServerConfig_rate_range env cfg Hcfg) as Hrate.
  fold v in Hcors. split; [done|].
  unfold Main.validateServerConfig.
  destruct (Atoi (Main.Port cfg)) as [n|].
  - rewrite (decide_False (P := _ < 0)) by lia.
    destruct (bool_decide (Exists _ _)) eqn:Hex.
    + apply bool_decide_eq_true in Hex. split; [|done].
      split; [done|]. intros [_ Hv]. exfalso. rewrite Hcors in Hex.
      destruct (decide (v = "")) as [He|He].
      * by apply Exists_cons in Hex as [?|?%Exists_nil].
      * destruct Hv as [?|Hall]; [done|].
        apply Exists_fmap in Hex. apply Exists_exists in Hex as (p & Hp & Hp').
        rewrite Forall_forall in Hall. by apply (Hall p).
    + apply bool_decide_eq_false in Hex. split; [|done].
      split; [|done]. intros _. split; [by eexists|].
      rewrite Hcors in Hex.
      destruct (decide (v = "")) as [He|He]; [by left|right].
      apply Forall_forall. intros p Hp Hp'. apply Hex.
      apply Exists_fmap, Exists_exists. by exists p.
  - split; [|done]. split; [done|]. by intros [[? ?] _].
Qed.

Lemma validateServerConfig_loaded_witness :
  let env : Environ := {["PORT" := "8080"; "SLACK_MCP_PORT" := "9000";
                         "SLACK_MCP_CORS_ORIGINS" := "https://a.example, ,https://b.example"]} in
  ∃ cfg, Main.loadServerConfig env = Main.Ok cfg
    ∧ Main.Port cfg = "8080"
    ∧ Main.validateServerConfig cfg = Some "invalid CORS origin: empty origin not allowed".
Proof.
  intros env. eexists. split; [reflexivity|].
  split.
  - by refine (proj1 (validateServerConfig_loaded env _ _)).
  - by vm_compute.
Defined.

(** X22: The allow-list is read twice as well.  On a configuration that
    passed validation, [main] and the middleware hold the same list when
    origins are configured; when none are, [main] records the wildcard and
    the middleware the empty list. *)
Theorem cors_read_twice env cfg :
  Main.loadServerConfig env = Main.Ok cfg →
  Main.validateServerConfig cfg = None →
  let v := Getenv env "SLACK_MCP_CORS_ORIGINS" in
  (v ≠ "" → Main.CORSOrigins cfg = parseCORSOrigins env)
  ∧ (v = "" → Main.CORSOrigins cfg = ["*"] ∧ parseCORSOrigins env = []).
Proof.
  intros Hcfg Hval v.
  destruct (loadServerConfig_fields env cfg Hcfg) as (_ & Hcors & _).
  fold v in Hcors. unfold parseCORSOrigins. fold v. split.
  - intros Hv. rewrite decide_False in Hcors by done.
    rewrite decide_False by done.
    unfold Main.validateServerConfig in Hval.
    destruct (Atoi _); [|done].
    destruct (bool_decide (Exists _ _)) eqn:Hex; [done|].
    apply bool_decide_eq_false in Hex. rewrite Hcors in Hex. rewrite Hcors.
    clear -Hex. induction (TrimSpace <$> Split v ",") as [|a l IH]; [done|].
    rewrite filter_cons. rewrite decide_True.
    + f_equal. apply IH. intros H. apply Hex. by apply Exists_cons_tl.
    + intros ->. apply Hex. by apply Exists_cons_hd.
  - intros Hv. rewrite decide_True in Hcors by done. by rewrite decide_True.
Qed.

Lemma cors_read_twice_witness :
  let env : Environ :=
    {["SLACK_MCP_CORS_ORIGINS" := "https://a.example , https://b.example"]} in
  ∃ cfg, Main.loadServerConfig env = Main.Ok cfg
    ∧ Main.CORSOrigins cfg = parseCORSOrigins env.
Proof.
  intros env. eexists. split; [reflexivity|].
  refine (proj1 (cors_read_twice env _ _ _) _); [reflexivity|reflexivity|].
  by vm_compute.
Defined.

(** X23: The switch of the health endpoints is read by [IsHealthCheckEnabled]
    and by [loadServerConfig]; the two agree on every value of the variable
    but [1], which only the loaded configuration takes for on. *)
Theorem health_switch_read_twice env cfg :
  Main.loadServerConfig env = Main.Ok cfg →
  (IsHealthCheckEnabled env = true → Main.HealthEnabled cfg = true)
  ∧ (Main.HealthEnabled cfg ≠ IsHealthCheckEnabled env
     ↔ Getenv env "SLACK_MCP_HEALTH_ENABLED" = "1").
Proof.
  intros Hcfg.
  destruct (loadServerConfig_fields env cfg Hcfg) as (_ & _ & -> & _).
  unfold IsHealthCheckEnabled.
  set (v := Getenv env "SLACK_MCP_HEALTH_ENABLED").
  destruct (decide (v = "1")) as [->|H1].
  - by vm_compute.
  - rewrite (bool_decide_eq_false_2 (v = "1")) by done. rewrite orb_false_r.
    split; [done|]. by split.
Qed.

Lemma health_switch_read_twice_witness :
  let env : Environ := {["SLACK_MCP_HEALTH_ENABLED" := "1"]} in
  ∃ cfg, Main.loadServerConfig env = Main.Ok cfg
    ∧ Main.HealthEnabled cfg ≠ IsHealthCheckEnabled env.
Proof.
  intros env. eexists. split; [reflexivity|].
  by refine (proj2 (proj2 (health_switch_read_twice env _ _)) _).
Defined.

(** X24: The switch of the security headers is read twice too.  Whenever
    the loaded configuration says the headers are on, the middleware sends
    them; the middleware also sends them for every value that is none of
    the empty string, [true], [1] and the six spellings of false, which the
    configuration records as off. *)
Theorem security_switch_read_twice env cfg :
  Main.loadServerConfig env = Main.Ok cfg →
  let v := Getenv env "SLACK_MCP_SECURITY_HEADERS" in
  (Main.SecurityHeaders cfg = true → parseSecurityHeaders env = true)
  ∧ (Main.SecurityHeaders cfg = false ∧ parseSecurityHeaders env = true
     ↔ v ∉ [""; "true"; "1"; "0"; "f"; "F"; "FALSE"; "false"; "False"]).
Proof.
  intros Hcfg v.
  destruct (loadServerConfig_fields env cfg Hcfg) as (_ & _ & _ & ->).
  fold v. unfold parseSecurityHeaders, ParseBool. fold v.
  destruct (decide (v = "")) as [He|He].
  { rewrite He. split; [done|]. split; [by intros [? _]|].
    intros H. destruct H. by left. }
  rewrite (bool_decide_eq_false_2 (v = "")) by done. rewrite orb_false_l.
  destruct (decide (v = "true")) as [->|Ht].
  { split; [done|]. split; [by intros [? _]|]. intros H. destruct H.
    rewrite !elem_of_cons. auto. }
  destruct (decide (v = "1")) as [->|H1].
  { split; [done|]. split; [by intros [? _]|]. intros H. destruct H.
    rewrite !elem_of_cons. auto. }
  rewrite (bool_decide_eq_false_2 (v = "true")), (bool_decide_eq_false_2 (v = "1")) by done.
  split; [done|].
  destruct (bool_decide (v ∈ ["1"; "t"; "T"; "TRUE"; "true"; "True"])) eqn:Hy.
  - apply bool_decide_eq_true in Hy. split; [|done]. intros _ Hn.
    rewrite !elem_of_cons in Hy. rewrite !elem_of_cons in Hn.
    destruct_or!; try congruence;
      repeat match goal with H : _ ∈ [] |- _ => by apply elem_of_nil in H end.
  - apply bool_decide_eq_false in Hy.
    destruct (bool_decide (v ∈ ["0"; "f"; "F"; "FALSE"; "false"; "False"])) eqn:Hf.
    + apply bool_decide_eq_true in Hf. split; [by intros [_ ?]|].
      intros Hn. destruct Hn. rewrite !elem_of_cons in Hf.
      rewrite !elem_of_cons. tauto.
    + apply bool_decide_eq_false in Hf. split; [|done]. intros _ Hn.
      apply Hf. rewrite !elem_of_cons in Hn.
      rewrite !elem_of_cons. tauto.
Qed.

Lemma security_switch_read_twice_witness :
  let env : Environ := {["SLACK_MCP_SECURITY_HEADERS" := "True"]} in
  ∃ cfg, Main.loadServerConfig env = Main.Ok cfg
    ∧ Main.SecurityHeaders cfg = false ∧ parseSecurityHeaders env = true.
Proof.
  intros env. eexists. split; [reflexivity|].
  refine (proj2 (proj2 (security_switch_read_twice env _ _)) _); [reflexivity|].
  apply (bool_decide_unpack _). by vm_compute.
Defined.

End configuration.
Section tool_configuration.
Implicit Types (config item : string) (items : list string).

Lemma toolFlags_fold items (a b : bool) :
  let neg item := Main.HasPrefix item "!" = true in
  let pos item := item ≠ "" ∧ Main.HasPrefix item "!" = false in
  let out :=
    foldl (λ '(hasNegated, hasPositive) item,
             let item := TrimSpace item in
             if decide (item = "") then (hasNegated, hasPositive)
             else if Main.HasPrefix item "!" then (true, hasPositive)
             else (hasNegated, true))
          (a, b) items in
  (out.1 = true ↔ a = true ∨ Exists neg (TrimSpace <$> items))
  ∧ (out.2 = true ↔ b = true ∨ Exists pos (TrimSpace <$> items)).
Proof.
  intros neg pos. revert a b. induction items as [|x items IH]; intros a b.
  - simpl. rewrite !Exists_nil. tauto.
  - cbn [foldl fmap list_fmap]. rewrite !Exists_cons.
    destruct (decide (TrimSpace x = "")) as [He|He].
    + destruct (IH a b) as [-> ->]. unfold neg, pos. rewrite He.
      split; (split; [tauto|]); intros [?|[H|?]]; auto.
      * by vm_compute in H.
      * by destruct H.
    + destruct (Main.HasPrefix (TrimSpace x) "!") eqn:Hp.
      * destruct (IH true b) as [-> ->]. unfold neg, pos. rewrite Hp.
        split; [tauto|]. split; [tauto|]. intros [?|[[_ ?]|?]]; auto. done.
      * destruct (IH a true) as [-> ->]. unfold neg, pos. rewrite Hp.
        split; [|tauto]. split; [tauto|]. intros [?|[?|?]]; auto. done.
Qed.

(** X25: [validateToolConfig] has one error, and gives it exactly when the
    comma-separated items, white space stripped, hold both an item that
    begins with an exclamation mark and a non-empty item that does not.
    The values it lets through at once (the empty string, [true], [1]) are
    no exception to that. *)
Theorem validateToolConfig_mixed config :
  let items := TrimSpace <$> Split config "," in
  (Main.validateToolConfig config = None
   ∨ Main.validateToolConfig config
     = Some "cannot mix allowed and disallowed (! prefixed) channels")
  ∧ (Main.validateToolConfig config ≠ None
     ↔ Exists (λ item, Main.HasPrefix item "!" = true) items
       ∧ Exists (λ item, item ≠ "" ∧ Main.HasPrefix item "!" = false) items).
Proof.
  intros items. unfold Main.validateToolConfig.
  destruct (bool_decide (config = "") || bool_decide (config = "true")
            || bool_decide (config = "1")) eqn:Hc.
  - split; [by left|]. split; [done|]. intros [Hn Hp]. exfalso.
    assert (items = [config]) as Hi.
    { unfold items.
      apply orb_true_iff in Hc as [Hc|Hc]; [apply orb_true_iff in Hc as [Hc|Hc]|];
        apply bool_decide_eq_true in Hc; by rewrite Hc. }
    rewrite Hi in Hn, Hp.
    apply Exists_cons in Hn as [Hn|Hn%Exists_nil]; [|done].
    apply Exists_cons in Hp as [[_ Hp]|Hp%Exists_nil]; [|done].
    congruence.
  - pose proof (toolFlags_fold (Split config ",") false false) as Hf.
    cbv zeta in Hf. unfold Main.toolFlags.
    destruct (foldl _ _ _) as [n p]. cbn [fst snd] in Hf. destruct Hf as [Hn Hp].
    fold items in Hn, Hp.
    destruct n, p; cbn [andb].
    + split; [by right|]. split; [|done]. intros _. split.
      * by destruct (proj1 Hn eq_refl).
      * by destruct (proj1 Hp eq_refl).
    + split; [by left|]. split; [done|]. intros [_ H].
      by pose proof (proj2 Hp (or_intror H)).
    + split; [by left|]. split; [done|]. intros [H _].
      by pose proof (proj2 Hn (or_intror H)).
    + split; [by left|]. split; [done|]. intros [H _].
      by pose proof (proj2 Hn (or_intror H)).
Qed.

End tool_configuration.

Section bind_address.
Implicit Types (cfg : Main.ServerConfig) (s : string) (c : ascii).

(** A string of decimal digits holds no other byte. *)
Lemma digits_bytes s c acc :
  is_Some (digits acc s) → digit c = None → ContainsByte s c = false.
Proof.
  revert acc. induction s as [|x s IH]; intros acc Hs Hc.
  - apply ContainsByte_nil.
  - cbn [digits] in Hs. rewrite ContainsByte_cons.
    destruct (digit x) as [d|] eqn:Hx; [|by destruct Hs].
    rewrite (IH _ Hs Hc), orb_false_r.
    unfold byte_eqb. apply Ascii.eqb_neq. intros ->. congruence.
Qed.

(** What [strconv.Atoi] accepts holds none of the bytes of an address. *)
Lemma Atoi_bytes s n c :
  Atoi s = Some n → c ∈ [":"; "["; "]"]%char → ContainsByte s c = false.
Proof.
  intros Hs Hc.
  assert (digit c = None ∧ c ≠ "-"%char ∧ c ≠ "+"%char) as (Hd & Hm & Hp).
  { rewrite !elem_of_cons, elem_of_nil in Hc. destruct_or!; by subst. }
  unfold Atoi in Hs.
  assert (∀ t, is_Some (unsigned t) → ContainsByte t c = false) as Hu.
  { intros t Ht. unfold unsigned in Ht. destruct t as [|x t]; [by destruct Ht|].
    by apply (digits_bytes _ _ 0). }
  destruct s as [|x s]; [done|].
  assert (∀ o : option Z,
            match o with
            | Some k => if bool_decide (MinInt ≤ k ≤ MaxInt) then Some k else None
            | None => None
            end = Some n → is_Some o) as Hsome.
  { intros [k|]; [by eexists|done]. }
  apply Hsome in Hs.
  destruct (decide (x = "-"%char)) as [->|Hx1].
  { rewrite ContainsByte_cons, Hu.
    - rewrite orb_false_r. unfold byte_eqb. by apply Ascii.eqb_neq.
    - by apply fmap_is_Some in Hs. }
  destruct (decide (x = "+"%char)) as [->|Hx2].
  { rewrite ContainsByte_cons, Hu by done.
    rewrite orb_false_r. unfold byte_eqb. by apply Ascii.eqb_neq. }
  apply Hu.
  destruct x as [[] [] [] [] [] [] [] []]; try done.
Qed.

(** X26: The address [main] binds to, for a port that passed validation
    and a host without brackets: [net.SplitHostPort] gives back host and
    port when the host has no colon (the empty host of the dual-stack
    binding included), and rejects the address when it has one, as an IPv6
    literal does, which [main] puts in brackets for the log only. *)
Theorem bindAddr_splits cfg n :
  Atoi (Main.Port cfg) = Some n →
  ContainsByte (Main.Host cfg) "[" = false →
  ContainsByte (Main.Host cfg) "]" = false →
  SplitHostPort (Main.bindAddr cfg) =
    if ContainsByte (Main.Host cfg) ":" then None
    else Some (Main.Host cfg, Main.Port cfg).
Proof.
  intros Hport Hh2 Hh3.
  assert (∀ c, c ∈ [":"; "["; "]"]%char → ContainsByte (Main.Port cfg) c = false) as Hp.
  { intros c. by apply Atoi_bytes with n. }
  assert (ContainsByte (Main.Port cfg) ":" = false) as Hp1
    by (apply Hp; rewrite !elem_of_cons; auto).
  assert (ContainsByte (Main.Port cfg) "[" = false) as Hp2
    by (apply Hp; rewrite !elem_of_cons; auto).
  assert (ContainsByte (Main.Port cfg) "]" = false) as Hp3
    by (apply Hp; rewrite !elem_of_cons; auto).
  assert (Main.bindAddr cfg = Main.Host cfg +:+ ":" +:+ Main.Port cfg) as ->.
  { unfold Main.bindAddr. case_decide as He; [by rewrite He|done]. }
  destruct (ContainsByte (Main.Host cfg) ":") eqn:Hh1.
  - unfold SplitHostPort. change (":" +:+ ?p) with (String ":" p).
    rewrite LastIndexByte_app by done.
    assert (match Main.Host cfg +:+ String ":" (Main.Port cfg) with
            | String "[" _ => true
            | _ => false
            end%char = false) as ->.
    { destruct (Main.Host cfg) as [|x host]; [done|].
      rewrite ContainsByte_cons in Hh2. apply orb_false_iff in Hh2 as [Hx _].
      rewrite app_cons. unfold byte_eqb in Hx.
      apply Ascii.eqb_neq in Hx. by destruct x as [[] [] [] [] [] [] [] []]. }
    by rewrite slice_app_l, Hh1.
  - by apply SplitHostPort_plain.
Qed.

Lemma bindAddr_splits_witness :
  let env : Environ := {["SLACK_MCP_HOST" := "::1"; "SLACK_MCP_PORT" := "8080"]} in
  ∃ cfg, Main.loadServerConfig env = Main.Ok cfg
    ∧ Main.validateServerConfig cfg = None
    ∧ Main.bindAddr cfg = "::1:8080"
    ∧ SplitHostPort (Main.bindAddr cfg) = None.
Proof.
  intros env. eexists. split; [reflexivity|]. split; [reflexivity|].
  split; [reflexivity|].
  by refine (bindAddr_splits _ 8080 _ _ _).
Defined.

End bind_address.
